(** * ratlib.api.http: URL joining and the API call wrapper

    A shallow embedding of [src/ratlib/api/http.py].  Python values are a
    small dynamically typed universe, exceptions are first-class values with
    their class, and every operation that may raise returns in the [result]
    monad.  The HTTP client library is not part of the module: its transport
    entry points and its status-code table are section variables. *)

From stdpp Require Import base option list strings gmap.
From Stdlib Require Import ZArith Ascii String.

Open Scope string_scope.
Open Scope Z_scope.

#[local] Set Warnings "-register-all".

(** ** Python values *)

(** The values the module handles: [None], booleans, integers, strings,
    sequences and string-keyed mappings (decoded JSON, request bodies).
    Strings are byte strings; the only characters the module inspects are
    ['/'] and the ASCII letters of a method name. *)
Inductive value : Type :=
  | VNone
  | VBool (b : bool)
  | VInt (n : Z)
  | VStr (s : string)
  | VList (items : list value)
  | VDict (entries : list (string * value)).

(** The transport library's response object: the attribute [status_code]
    and the outcome of [.json()] ([None] when the body is not valid JSON). *)
Record Response : Type := mkResponse {
  status_code : Z;
  resp_json : option value
}.

(** ** Exceptions *)

Inductive exn_class : Type :=
  (* builtins *)
  | Exception | TypeError | AttributeError | ValueError
  | LookupError | IndexError | KeyError | OSError
  (* requests.exceptions *)
  | RequestException | RequestsHTTPError | RequestsConnectionError
  | RequestsTimeout
  (* this module *)
  | APIError | BadResponseError | BadJSONError | UnsupportedMethodError
  | HTTPError.

#[global] Instance exn_class_eq_dec : EqDecision exn_class.
Proof. solve_decision. Defined.

(** The direct base class, as written in each [class] statement. *)
Definition base (c : exn_class) : option exn_class :=
  match c with
  | Exception => None
  | TypeError | AttributeError | ValueError | LookupError | OSError =>
      Some Exception
  | IndexError | KeyError => Some LookupError
  | RequestException => Some OSError
  | RequestsHTTPError | RequestsConnectionError | RequestsTimeout =>
      Some RequestException
  | APIError => Some Exception
  | BadResponseError => Some APIError
  | BadJSONError => Some BadResponseError
  | UnsupportedMethodError => Some APIError
  | HTTPError => Some APIError
  end.

Fixpoint ancestors (fuel : nat) (c : exn_class) : list exn_class :=
  match fuel with
  | O => []
  | S fuel' =>
      c :: match base c with
           | Some p => ancestors fuel' p
           | None => []
           end
  end.

(** [issubclass c d]: [d] is [c] or one of its (transitive) bases.  No chain
    of bases is longer than five classes. *)
Definition issubclass (c d : exn_class) : bool :=
  bool_decide (d ∈ ancestors 6 c).

(** An exception instance.  [e_code], [e_details] and [e_json] are the
    attributes set by [APIError.__init__]; [e_response] is the [response]
    attribute of the transport library's exceptions; [e_cause] is the
    exception named after [from]. *)
Inductive exn : Type :=
  mkExn {
    e_class : exn_class;
    e_code : value;
    e_details : value;
    e_json : value;
    e_response : option Response;
    e_cause : option exn
  }.

(** An exception raised by the interpreter or by a library, without the
    attributes of [APIError]. *)
Definition plain_exn (c : exn_class) : exn :=
  mkExn c VNone VNone VNone None None.

(** [except cls as ex] matches [ex] when its class is a subclass of [cls]. *)
Definition catches (handler : exn_class) (ex : exn) : bool :=
  issubclass (e_class ex) handler.

(** [APIError.__init__(self, code=None, details=None, json=None)], shared by
    the subclasses that do not override it. *)
Definition APIError_init (cls : exn_class) (code details json : value) : exn :=
  mkExn cls code details json None None.

(** [BadJSONError.__init__(self, code='2608', details="API didn't return
    valid JSON.")], which calls [super().__init__(code, details)]. *)
Definition BadJSONError_init (code details : option value) : exn :=
  APIError_init BadJSONError
    (default (VStr "2608") code)
    (default (VStr "API didn't return valid JSON.") details)
    VNone.

(** [UnsupportedMethodError.__init__(self, code='9999', details="Invalid
    request method.")]. *)
Definition UnsupportedMethodError_init (code details : option value) : exn :=
  APIError_init UnsupportedMethodError
    (default (VStr "9999") code)
    (default (VStr "Invalid request method.") details)
    VNone.

(** [raise e from cause]. *)
Definition raise_from (e cause : exn) : exn :=
  mkExn (e_class e) (e_code e) (e_details e) (e_json e) (e_response e)
        (Some cause).

(** ** The result monad *)

Inductive result (A : Type) : Type :=
  | Ok (a : A)
  | Raise (e : exn).
Arguments Ok {A} a.
Arguments Raise {A} e.

#[global] Instance result_ret : MRet result := fun A a => Ok a.
#[global] Instance result_bind : MBind result := fun A B f m =>
  match m with
  | Ok a => f a
  | Raise e => Raise e
  end.

(** ** Operations on values *)

(** Truth value testing ([not x], [x or y]). *)
Definition truthy (v : value) : bool :=
  match v with
  | VNone => false
  | VBool b => b
  | VInt n => negb (n =? 0)
  | VStr s => negb (bool_decide (s = EmptyString))
  | VList items => negb (bool_decide (items = []))
  | VDict entries => negb (bool_decide (entries = []))
  end.

Definition slash : ascii := "/"%char.

(** [v == '/']: only the one-character string compares equal. *)
Definition is_slash (v : value) : bool :=
  match v with
  | VStr s => bool_decide (s = String slash EmptyString)
  | _ => false
  end.

Definition str_first (s : string) : option ascii :=
  match s with
  | EmptyString => None
  | String c _ => Some c
  end.

Fixpoint str_last (s : string) : option ascii :=
  match s with
  | EmptyString => None
  | String c EmptyString => Some c
  | String _ rest => str_last rest
  end.

Definition str_tail (s : string) : string :=
  match s with
  | EmptyString => EmptyString
  | String _ rest => rest
  end.

Definition char_str (c : ascii) : value := VStr (String c EmptyString).

(** [v[0]]. *)
Definition getitem_first (v : value) : result value :=
  match v with
  | VStr s =>
      match str_first s with
      | Some c => Ok (char_str c)
      | None => Raise (plain_exn IndexError)
      end
  | VList items =>
      match items with
      | x :: _ => Ok x
      | [] => Raise (plain_exn IndexError)
      end
  | VDict _ => Raise (plain_exn KeyError)   (* keys are strings, never 0 *)
  | _ => Raise (plain_exn TypeError)
  end.

(** [v[-1]]. *)
Definition getitem_last (v : value) : result value :=
  match v with
  | VStr s =>
      match str_last s with
      | Some c => Ok (char_str c)
      | None => Raise (plain_exn IndexError)
      end
  | VList items =>
      match last items with
      | Some x => Ok x
      | None => Raise (plain_exn IndexError)
      end
  | VDict _ => Raise (plain_exn KeyError)
  | _ => Raise (plain_exn TypeError)
  end.

(** [v[1:]]. *)
Definition slice_from_1 (v : value) : result value :=
  match v with
  | VStr s => Ok (VStr (str_tail s))
  | VList items => Ok (VList (tail items))
  | _ => Raise (plain_exn TypeError)
  end.

(** ** urljoin *)

(** The generator [_gen] inside [urljoin], as the list of the values it
    yields.  [prev] is the loop variable of the same name, [VNone] before
    the loop.  An exception raised while the generator runs ends the join. *)
Fixpoint _gen (prev : value) (parts : list value) : result (list value) :=
  match parts with
  | [] => Ok []
  | part :: rest =>
      if negb (truthy part) then _gen prev rest
      else if negb (truthy prev) then
        out ← _gen part rest; Ok (part :: out)
      else
        pl ← getitem_last prev;
        p0 ← getitem_first part;
        if xorb (is_slash pl) (is_slash p0) then
          (* exactly one slash was present *)
          out ← _gen part rest; Ok (part :: out)
        else
          p0' ← getitem_first part;
          if is_slash p0' then
            (* two slashes *)
            stripped ← slice_from_1 part;
            out ← _gen stripped rest; Ok (stripped :: out)
          else
            (* no slashes *)
            out ← _gen part rest; Ok (VStr (String slash EmptyString) :: part :: out)
  end.

(** [str.join] with the empty separator: every item must be a [str]. *)
Fixpoint str_join_empty (items : list value) : result string :=
  match items with
  | [] => Ok EmptyString
  | VStr s :: rest => tl ← str_join_empty rest; Ok (s +:+ tl)
  | _ :: _ => Raise (plain_exn TypeError)
  end.

(** [urljoin]: [parts] is the tuple of its positional arguments. *)
Definition urljoin (parts : list value) : result string :=
  pieces ← _gen VNone parts; str_join_empty pieces.

(** [urljoin] on string fragments, as a list of Python strings. *)
Definition fragments (ps : list string) : list value := VStr <$> ps.


(** ** Mappings, membership and attributes *)

Fixpoint dict_lookup (key : string) (entries : list (string * value))
  : option value :=
  match entries with
  | [] => None
  | (k, v) :: rest => if bool_decide (k = key) then Some v else dict_lookup key rest
  end.

Fixpoint has_prefix (p s : string) : bool :=
  match p, s with
  | EmptyString, _ => true
  | String a p', String b s' => bool_decide (a = b) && has_prefix p' s'
  | String _ _, EmptyString => false
  end.

Fixpoint has_substring (p s : string) : bool :=
  has_prefix p s ||
  match s with
  | EmptyString => false
  | String _ s' => has_substring p s'
  end.

(** [key in v] for a string [key]: a key of a mapping, an element of a
    sequence, a substring of a string; other values are not iterable. *)
Definition contains (key : string) (v : value) : result bool :=
  match v with
  | VDict entries => Ok (bool_decide (is_Some (dict_lookup key entries)))
  | VList items =>
      Ok (existsb (fun x => match x with
                            | VStr s => bool_decide (s = key)
                            | _ => false
                            end) items)
  | VStr s => Ok (has_substring key s)
  | _ => Raise (plain_exn TypeError)
  end.

(** [v[key]] for a string [key]. *)
Definition getitem_key (key : string) (v : value) : result value :=
  match v with
  | VDict entries =>
      match dict_lookup key entries with
      | Some x => Ok x
      | None => Raise (plain_exn KeyError)
      end
  | _ => Raise (plain_exn TypeError)
  end.

(** [v.get(key)]: only mappings have the method. *)
Definition dict_get (key : string) (v : value) : result value :=
  match v with
  | VDict entries => Ok (default VNone (dict_lookup key entries))
  | _ => Raise (plain_exn AttributeError)
  end.

(** Attribute access on a response object.  [status_code] is the attribute
    that carries the numeric status; the object has no attribute named
    [status]. *)
Definition Response_getattr (r : Response) (name : string) : result value :=
  if bool_decide (name = "status_code") then Ok (VInt (status_code r))
  else Raise (plain_exn AttributeError).

(** [Response.raise_for_status()]: the transport library raises its own
    [HTTPError], carrying the response, for a 4xx or 5xx status. *)
Definition raise_for_status (r : Response) : result unit :=
  if (400 <=? status_code r) && (status_code r <? 600)
  then Raise (mkExn RequestsHTTPError VNone VNone VNone (Some r) None)
  else Ok tt.

(** ** Dispatch *)

Definition upper_char (c : ascii) : ascii :=
  let n := nat_of_ascii c in
  if ((97 <=? n) && (n <=? 122))%nat then ascii_of_nat (n - 32) else c.

(** [str.upper()] on ASCII text. *)
Fixpoint upper (s : string) : string :=
  match s with
  | EmptyString => EmptyString
  | String c rest => String (upper_char c) (upper rest)
  end.

(** The keys of the module-level table [request_methods], built from
    ["GET PUT POST".split(" ")]; the entry for a key is the attribute of
    that name of the transport library. *)
Definition request_methods : list string := ["GET"; "PUT"; "POST"].

Definition kwargs := list (string * value).

(** One invocation of the transport library: either the entry of
    [request_methods] for [verb], or the generic [requests.request].  Both
    receive the URL positionally and the body as [json=]; [options] are the
    further keyword arguments. *)
Inductive transport_call : Type :=
  | HelperCall (verb : string) (url : string) (json : value) (options : kwargs)
  | RequestCall (method : string) (url : string) (json : value) (options : kwargs).

(** Lines 96-99: which transport entry point is invoked, and with what. *)
Definition dispatch (method uri : string) (data : value) (extra : kwargs)
  : transport_call :=
  if bool_decide (method ∈ request_methods)
  then HelperCall method uri data []
  else RequestCall (upper method) uri data [].

(** [not statuses]: no set, or an empty one. *)
Definition statuses_given (statuses : option (gset Z)) : bool :=
  match statuses with
  | None => false
  | Some accepted => negb (bool_decide (accepted = ∅))
  end.

Definition in_statuses (code : Z) (statuses : option (gset Z)) : bool :=
  match statuses with
  | None => false
  | Some accepted => bool_decide (code ∈ accepted)
  end.

Section Call.

(** The transport library: performing one invocation returns a response
    or raises. *)
Variable transport : transport_call -> result Response.

(** Subscripting [requests.status_codes]. *)
Variable status_codes_getitem : value -> result value.

(** Lines 100-103: status validation of a received response. *)
Definition check_status (statuses : option (gset Z)) (response : Response)
  : result unit :=
  if negb (statuses_given statuses) then raise_for_status response
  else if negb (in_statuses (status_code response) statuses) then
    code ← Response_getattr response "status_code";
    st ← Response_getattr response "status";
    names ← status_codes_getitem st;
    details ← getitem_first names;
    Raise (APIError_init HTTPError code details VNone)
  else Ok tt.

(** Lines 96-103: the body of the first [try]. *)
Definition try_request (method uri : string) (data : value)
    (statuses : option (gset Z)) (extra : kwargs) : result Response :=
  response ← transport (dispatch method uri data extra);
  _ ← check_status statuses response;
  Ok response.

(** Lines 104-107: the two [except] clauses, tried in order. *)
Definition handle_request_errors (outcome : result Response)
  : result Response :=
  match outcome with
  | Ok response => Ok response
  | Raise ex =>
      if catches RequestsHTTPError ex then
        response ← match e_response ex with
                   | Some r => Ok r
                   | None => Raise (plain_exn AttributeError)
                   end;
        code ← Response_getattr response "status_code";
        names ← status_codes_getitem code;
        details ← getitem_first names;
        Raise (raise_from (APIError_init HTTPError code details VNone) ex)
      else if catches RequestException ex then
        Raise (raise_from (APIError_init BadResponseError VNone VNone VNone) ex)
      else Raise ex
  end.

(** Lines 108-111: [response.json()], a [ValueError] becoming a
    [BadJSONError]. *)
Definition decode_json (response : Response) : result value :=
  match resp_json response with
  | Some json => Ok json
  | None =>
      Raise (raise_from (BadJSONError_init None None) (plain_exn ValueError))
  end.

(** Lines 113-118: classification of the decoded payload. *)
Definition classify (json : value) : result value :=
  has_errors ← contains "errors" json;
  if has_errors : bool then
    errors ← getitem_key "errors" json;
    err ← getitem_first errors;
    code ← dict_get "code" err;
    details ← dict_get "details" err;
    Raise (APIError_init APIError code details json)
  else
    has_data ← contains "data" json;
    if negb has_data then
      Raise (APIError_init BadResponseError VNone
               (VStr "Did not receive a data field in a non-error response.")
               json)
    else Ok json.

(** Lines 91-92: a [uri] that is not a [str] goes through [urljoin] as its
    single argument. *)
Definition resolve_uri (uri : value) : result string :=
  match uri with
  | VStr s => Ok s
  | _ => urljoin [uri]
  end.

(** [call(method, uri, data=None, statuses=None, **kwargs)]; [statuses] is
    [None] when absent and [extra] holds [kwargs]. *)
Definition call (method : string) (uri : value) (data : value)
    (statuses : option (gset Z)) (extra : kwargs) : result value :=
  uri ← resolve_uri uri;
  let data := if truthy data then data else VDict [] in
  response ← handle_request_errors (try_request method uri data statuses extra);
  json ← decode_json response;
  classify json.

(** Lines 91-107 of [call]: everything up to a validated response. *)
Definition request_stage (method : string) (uri data : value)
    (statuses : option (gset Z)) (extra : kwargs) : result Response :=
  uri ← resolve_uri uri;
  handle_request_errors
    (try_request method uri
       (if truthy data then data else VDict []) statuses extra).

End Call.

(** ** Specification-side notions for [urljoin] *)

Definition nonempty (s : string) : bool := negb (bool_decide (s = EmptyString)).

Definition ends_with_slash (s : string) : bool :=
  bool_decide (str_last s = Some slash).

Definition starts_with_slash (s : string) : bool :=
  bool_decide (str_first s = Some slash).

(** No junction carries a slash: of two adjacent fragments the left one does
    not end with ['/'] and the right one does not start with it. *)
Fixpoint junctions_free (ps : list string) : bool :=
  match ps with
  | p :: (q :: _) as rest =>
      negb (ends_with_slash p) && negb (starts_with_slash q) && junctions_free rest
  | _ => true
  end.

(** ["/".join(ps)]. *)
Definition slash_join (ps : list string) : string := String.concat "/" ps.

(** The fragments after the first, each preceded by one ['/']. *)
Fixpoint slash_each (ps : list string) : string :=
  match ps with
  | [] => EmptyString
  | p :: rest => "/" +:+ p +:+ slash_each rest
  end.

(** The specification's pairwise reduction: what is emitted for [part] when
    it follows the fragment [prev]. *)
Definition junction (prev part : string) : string :=
  if xorb (ends_with_slash prev) (starts_with_slash part) then part
  else if starts_with_slash part then str_tail part
  else "/" +:+ part.

Fixpoint join_pairwise (prev : string) (ps : list string) : string :=
  match ps with
  | [] => EmptyString
  | part :: rest => junction prev part +:+ join_pairwise part rest
  end.

Definition join_fragments (ps : list string) : string :=
  match ps with
  | [] => EmptyString
  | first :: rest => first +:+ join_pairwise first rest
  end.

(** The fragment that is a single ['/']. *)
Definition lone_slash : string := String slash EmptyString.

(** ** Specification-side notions for [call] *)

Definition call_options (c : transport_call) : kwargs :=
  match c with
  | HelperCall _ _ _ options | RequestCall _ _ _ options => options
  end.

(** A transport that answers every invocation with the same response, and a
    status-code table with one entry shape, for closed instances. *)
Definition answering (r : Response) : transport_call → result Response :=
  fun _ => Ok r.

Definition sample_lookup : value → result value :=
  fun _ => Ok (VList [VStr "not_found"]).

(** Subscripting a module object, which is what [requests.status_codes] is
    after the [import] of line 4: a [TypeError] whatever the key. *)
Definition module_subscript : value → result value :=
  fun _ => Raise (plain_exn TypeError).

(** ** Notions for the further properties *)

(** [s] without its last character. *)
Fixpoint str_init (s : string) : string :=
  match s with
  | EmptyString => EmptyString
  | String _ EmptyString => EmptyString
  | String c rest => String c (str_init rest)
  end.

(** [s] without one trailing ['/'], if it has one. *)
Definition rstrip1 (s : string) : string :=
  if ends_with_slash s then str_init s else s.

(** [s] without one leading ['/'], if it has one. *)
Definition lstrip1 (s : string) : string :=
  if starts_with_slash s then str_tail s else s.

(** The fragments after the first, trimmed for joining: each loses one
    leading slash and, unless it is the last, one trailing slash. *)
Fixpoint trim_rest (ps : list string) : list string :=
  match ps with
  | [] => []
  | [q] => [lstrip1 q]
  | q :: rest => rstrip1 (lstrip1 q) :: trim_rest rest
  end.

(** All the fragments trimmed at their junctions; the outer ends of the first
    and the last fragment are left alone. *)
Definition trim_junctions (ps : list string) : list string :=
  match ps with
  | [] => []
  | [p] => [p]
  | p :: rest => rstrip1 p :: trim_rest rest
  end.

(** Whether a status passes validation: membership in a non-empty acceptable
    set, otherwise anything but 4xx and 5xx. *)
Definition status_passes (statuses : option (gset Z)) (code : Z) : bool :=
  if statuses_given statuses then in_statuses code statuses
  else negb ((400 <=? code) && (code <? 600)).

(** The classes of the exceptions [call] creates itself: the module's own,
    and those of the interpreter for a value of the wrong shape. *)
Definition raised_by_call (c : exn_class) : bool :=
  match c with
  | TypeError | AttributeError | IndexError | KeyError
  | APIError | BadResponseError | BadJSONError | HTTPError => true
  | _ => false
  end.

(** The classes the module defines. *)
Definition module_classes : list exn_class :=
  [APIError; BadResponseError; BadJSONError; UnsupportedMethodError; HTTPError].

(** A transport that fails every invocation with the same exception. *)
Definition failing (ex : exn) : transport_call → result Response :=
  fun _ => Raise ex.

(** Where an exception that [call] ends in comes from: it is the
    transport's own, of a class the [except] clauses do not catch; or it was
    raised by the status-code table; or it is of a class [call] raises
    itself. *)
Definition raise_origin (transport : transport_call → result Response)
    (lookup : value → result value) (ex : exn) : Prop :=
  (∃ c, transport c = Raise ex ∧ catches RequestException ex = false)
  ∨ (∃ v, lookup v = Raise ex)
  ∨ raised_by_call (e_class ex) = true.

(** * Properties *)

(** ** [urljoin] on the documented examples *)

Example urljoin_double_slash :
  urljoin (fragments ["a/"; "/b"]) = Ok "a/b".
Proof. reflexivity. Qed.

Example urljoin_no_slash :
  urljoin (fragments ["a"; "b"]) = Ok "a/b".
Proof. reflexivity. Qed.

Example urljoin_single_slash :
  urljoin (fragments ["a/"; "b"]) = Ok "a/b".
Proof. reflexivity. Qed.

Example urljoin_empty_fragments :
  urljoin (fragments [EmptyString; "a"; EmptyString; "b"]) = Ok "a/b".
Proof. reflexivity. Qed.

Example urljoin_no_arguments : urljoin [] = Ok EmptyString.
Proof. reflexivity. Qed.


(** ** Strings *)

Lemma is_slash_char_str c : is_slash (char_str c) = bool_decide (c = slash).
Proof.
  unfold is_slash, char_str.
  destruct (decide (c = slash)) as [->|Hne].
  - rewrite !bool_decide_eq_true_2; done.
  - rewrite !bool_decide_eq_false_2; congruence.
Qed.

Lemma str_last_nonempty s : s ≠ EmptyString → is_Some (str_last s).
Proof.
  induction s as [|c s IH]; [done|]. intros _.
  destruct s as [|c' s']; [by eexists|].
  simpl in *. apply IH. done.
Qed.

Lemma truthy_VStr s : truthy (VStr s) = nonempty s.
Proof. reflexivity. Qed.

Lemma nonempty_true s : nonempty s = true ↔ s ≠ EmptyString.
Proof.
  unfold nonempty. rewrite negb_true_iff, bool_decide_eq_false. done.
Qed.

Lemma str_app_cons c s t : String c s +:+ t = String c (s +:+ t).
Proof. reflexivity. Qed.

Lemma str_app_empty_r s : s +:+ EmptyString = s.
Proof. induction s as [|c s IH]; [done | by rewrite str_app_cons, IH]. Qed.

Lemma slash_join_cons p ps : slash_join (p :: ps) = p +:+ slash_each ps.
Proof.
  unfold slash_join. revert p.
  induction ps as [|q ps IH]; intros p.
  - cbn [String.concat slash_each]. by rewrite str_app_empty_r.
  - change (String.concat "/" (p :: q :: ps))
      with (p +:+ "/" +:+ String.concat "/" (q :: ps)).
    by rewrite IH.
Qed.

(** ** [urljoin] without slashes at the junctions *)

(** The loop invariant of [_gen] when no junction carries a slash: with a
    non-empty [prev], every further non-empty fragment is emitted after one
    separator. *)
Lemma gen_junctions_free (ps : list string) : ∀ prev : string,
  prev ≠ EmptyString →
  junctions_free (prev :: List.filter nonempty ps) = true →
  _gen (VStr prev) (fragments ps) ≫= str_join_empty
  = Ok (slash_each (List.filter nonempty ps)).
Proof.
  induction ps as [|part rest IH]; intros prev Hprev Hfree; [done|].
  cbn [fragments fmap list_fmap _gen]. rewrite !truthy_VStr.
  cbn [List.filter] in *.
  destruct (nonempty part) eqn:Hpart; cbn [negb].
  - apply nonempty_true in Hpart.
    assert (nonempty prev = true) as -> by by apply nonempty_true.
    cbn [negb].
    cbn [junctions_free] in Hfree.
    apply andb_prop in Hfree as [Hj Hrest].
    apply andb_prop in Hj as [Hend Hstart].
    apply negb_true_iff, bool_decide_eq_false in Hend, Hstart.
    destruct (str_last_nonempty prev Hprev) as [cl Hcl].
    destruct part as [|c0 part']; [done|].
    cbn [getitem_last getitem_first str_first]. rewrite Hcl.
    cbn [mbind result_bind]. rewrite !is_slash_char_str.
    rewrite (bool_decide_eq_false_2 (cl = slash)) by congruence.
    rewrite (bool_decide_eq_false_2 (c0 = slash)) by (simpl in Hstart; congruence).
    cbn [xorb].
    specialize (IH (String c0 part') ltac:(done) Hrest).
    unfold fragments in IH.
    destruct (_gen (VStr (String c0 part')) (VStr <$> rest)) as [out|e];
      cbn [mbind result_bind] in *; [|done].
    cbn [str_join_empty mbind result_bind]. rewrite IH.
    cbn [mbind result_bind slash_each]. done.
  - apply (IH prev Hprev Hfree).
Qed.

(** Before the first non-empty fragment [prev] is still [None]: empty
    fragments are passed over and the first non-empty one is emitted as it
    is. *)
Lemma gen_first_fragment (ps : list string) :
  junctions_free (List.filter nonempty ps) = true →
  _gen VNone (fragments ps) ≫= str_join_empty
  = Ok (slash_join (List.filter nonempty ps)).
Proof.
  induction ps as [|part rest IH]; intros Hfree; [done|].
  cbn [fragments fmap list_fmap _gen]. rewrite truthy_VStr.
  cbn [List.filter] in *.
  destruct (nonempty part) eqn:Hpart; cbn [negb truthy].
  - apply nonempty_true in Hpart.
    pose proof (gen_junctions_free rest part Hpart Hfree) as Hrest.
    unfold fragments in Hrest.
    destruct (_gen (VStr part) (VStr <$> rest)) as [out|e];
      cbn [mbind result_bind] in *; [|done].
    cbn [str_join_empty mbind result_bind]. rewrite Hrest.
    cbn [mbind result_bind]. by rewrite slash_join_cons.
  - by apply IH.
Qed.

(** C9 (as amended): for every sequence of fragments in which no junction
    between consecutive non-empty fragments carries a slash, [urljoin]
    returns exactly the non-empty fragments joined by a single ['/'] between
    each consecutive pair. *)
Theorem urljoin_junctions_free (ps : list string) :
  junctions_free (List.filter nonempty ps) = true →
  urljoin (fragments ps) = Ok (slash_join (List.filter nonempty ps)).
Proof. intros Hfree. unfold urljoin. by apply gen_first_fragment. Qed.

Lemma urljoin_junctions_free_witness :
  urljoin (fragments ["http://api"; EmptyString; "rats"; "42"])
  = Ok "http://api/rats/42".
Proof.
  apply (urljoin_junctions_free ["http://api"; EmptyString; "rats"; "42"]).
  reflexivity.
Defined.

(** C9 as first stated fails: the sequence is non-empty and no junction
    carries a slash, yet the empty fragment in the middle is dropped, so the
    result is not the join of all the fragments. *)
Lemma urljoin_join_all_fragments_counterexample :
  ["a"; EmptyString; "b"] ≠ []
  ∧ junctions_free ["a"; EmptyString; "b"] = true
  ∧ slash_join ["a"; EmptyString; "b"] = "a//b"
  ∧ urljoin (fragments ["a"; EmptyString; "b"]) = Ok "a/b"
  ∧ urljoin (fragments ["a"; EmptyString; "b"])
    ≠ Ok (slash_join ["a"; EmptyString; "b"]).
Proof. repeat split; done. Qed.

(** ** [urljoin] as a pairwise reduction *)

Lemma ends_with_slash_last s c :
  str_last s = Some c → ends_with_slash s = bool_decide (c = slash).
Proof.
  intros Hc. unfold ends_with_slash. rewrite Hc.
  destruct (decide (c = slash)) as [->|Hne].
  - by rewrite !bool_decide_eq_true_2.
  - rewrite !bool_decide_eq_false_2; congruence.
Qed.

Lemma ends_with_slash_tail c s :
  s ≠ EmptyString → ends_with_slash (String c s) = ends_with_slash s.
Proof. intros Hs. unfold ends_with_slash. by destruct s. Qed.

(** The loop invariant of [_gen] in general: [cur] is the value of the loop
    variable, [prev] the fragment it came from; they end alike as long as
    stripping the leading slash leaves something. *)
Lemma gen_pairwise (ps : list string) : ∀ prev cur : string,
  cur ≠ EmptyString →
  ends_with_slash cur = ends_with_slash prev →
  Forall (λ p, p ≠ lone_slash) ps →
  _gen (VStr cur) (fragments ps) ≫= str_join_empty
  = Ok (join_pairwise prev (List.filter nonempty ps)).
Proof.
  induction ps as [|part rest IH]; intros prev cur Hcur Hends Hlone; [done|].
  apply Forall_cons in Hlone as [Hpart_lone Hlone].
  cbn [fragments fmap list_fmap _gen]. rewrite !truthy_VStr.
  cbn [List.filter].
  destruct (nonempty part) eqn:Hpart; cbn [negb]; [|by apply IH].
  apply nonempty_true in Hpart.
  assert (nonempty cur = true) as -> by by apply nonempty_true.
  cbn [negb join_pairwise].
  destruct (str_last_nonempty cur Hcur) as [cl Hcl].
  destruct part as [|c0 part']; [done|].
  cbn [getitem_last getitem_first str_first]. rewrite Hcl.
  cbn [mbind result_bind]. rewrite !is_slash_char_str.
  unfold junction, starts_with_slash. cbn [str_first str_tail].
  rewrite <- Hends, (ends_with_slash_last cur cl Hcl).
  replace (bool_decide (Some c0 = Some slash)) with (bool_decide (c0 = slash)).
  2:{ apply bool_decide_ext. split; congruence. }
  destruct (bool_decide (cl = slash)) eqn:Hl, (bool_decide (c0 = slash)) eqn:H0;
    cbn [xorb].
  - (* two slashes *)
    apply bool_decide_eq_true in H0 as ->.
    assert (part' ≠ EmptyString) as Htail by (intros ->; by apply Hpart_lone).
    specialize (IH (String slash part') part' Htail
                  (eq_sym (ends_with_slash_tail slash part' Htail)) Hlone).
    unfold fragments in IH. cbn [slice_from_1 str_tail mbind result_bind].
    destruct (_gen (VStr part') (VStr <$> rest)) as [out|e];
      cbn [mbind result_bind] in *; [|done].
    cbn [str_join_empty mbind result_bind]. rewrite IH. done.
  - specialize (IH (String c0 part') (String c0 part') ltac:(done) eq_refl Hlone).
    unfold fragments in IH.
    destruct (_gen (VStr (String c0 part')) (VStr <$> rest)) as [out|e];
      cbn [mbind result_bind] in *; [|done].
    cbn [str_join_empty mbind result_bind]. rewrite IH. done.
  - specialize (IH (String c0 part') (String c0 part') ltac:(done) eq_refl Hlone).
    unfold fragments in IH.
    destruct (_gen (VStr (String c0 part')) (VStr <$> rest)) as [out|e];
      cbn [mbind result_bind] in *; [|done].
    cbn [str_join_empty mbind result_bind]. rewrite IH. done.
  - specialize (IH (String c0 part') (String c0 part') ltac:(done) eq_refl Hlone).
    unfold fragments in IH.
    destruct (_gen (VStr (String c0 part')) (VStr <$> rest)) as [out|e];
      cbn [mbind result_bind] in *; [|done].
    cbn [str_join_empty mbind result_bind]. rewrite IH. done.
Qed.

(** When no fragment is a lone ['/'], [urljoin] is the pairwise reduction
    of the non-empty fragments. *)
Lemma urljoin_pairwise (ps : list string) :
  Forall (λ p, p ≠ lone_slash) ps →
  urljoin (fragments ps) = Ok (join_fragments (List.filter nonempty ps)).
Proof.
  unfold urljoin.
  induction ps as [|part rest IH]; intros Hlone; [done|].
  apply Forall_cons in Hlone as [Hpart_lone Hlone].
  cbn [fragments fmap list_fmap _gen]. rewrite truthy_VStr.
  cbn [List.filter].
  destruct (nonempty part) eqn:Hpart; cbn [negb truthy]; [|by apply IH].
  apply nonempty_true in Hpart.
  pose proof (gen_pairwise rest part part Hpart eq_refl Hlone) as Hrest.
  unfold fragments in Hrest.
  destruct (_gen (VStr part) (VStr <$> rest)) as [out|e];
    cbn [mbind result_bind] in *; [|done].
  cbn [str_join_empty mbind result_bind]. rewrite Hrest. done.
Qed.

(** C1: a fragment that is a lone ['/'] between two slashes leaves two
    slashes in the result.  After a fragment [p] ending in ['/'] the lone
    ['/'] is emitted with its slash stripped, which leaves [prev] empty; the
    next fragment is then taken for the first one and emitted whole, leading
    slash included. *)
Theorem urljoin_lone_slash_fragment (p q : string) :
  ends_with_slash p = true →
  urljoin (fragments [p; lone_slash; String slash q])
  = Ok (p +:+ String slash q).
Proof.
  intros Hend. apply bool_decide_eq_true in Hend.
  assert (nonempty p = true) as Hp.
  { apply nonempty_true. by intros ->. }
  unfold urljoin.
  cbn [fragments fmap list_fmap _gen]. rewrite (truthy_VStr p), Hp.
  cbn [negb truthy getitem_last]. rewrite Hend.
  cbn -[String.append].
  repeat (case_bool_decide; try done).
  cbn -[String.append].
  by rewrite str_app_empty_r.
Qed.

Lemma urljoin_lone_slash_fragment_witness :
  urljoin (fragments ["a/"; "/"; "/b"]) = Ok "a//b".
Proof. apply (urljoin_lone_slash_fragment "a/" "b"). reflexivity. Defined.

(** ** The exception hierarchy *)

(** C10: [BadJSONError] derives from [BadResponseError], which derives from
    [APIError]; an [except BadResponseError] clause (and an [except APIError]
    one) therefore catches every [BadJSONError], whatever its attributes. *)
Theorem BadJSONError_is_BadResponseError :
  base BadJSONError = Some BadResponseError
  ∧ base BadResponseError = Some APIError
  ∧ issubclass BadJSONError BadResponseError = true
  ∧ issubclass BadJSONError APIError = true
  ∧ issubclass BadResponseError BadJSONError = false
  ∧ ∀ code details json response cause,
      catches BadResponseError
        (mkExn BadJSONError code details json response cause) = true.
Proof. repeat split. Qed.

(** ** [call]: the request *)


(** The keys of [request_methods] are upper-case already. *)
Lemma upper_request_methods method :
  method ∈ request_methods → upper method = method.
Proof.
  unfold request_methods. rewrite !elem_of_cons, elem_of_nil.
  intros [-> | [-> | [-> | []]]]; reflexivity.
Qed.

(** Lines 96-99: a method in the case-sensitive set GET, PUT, POST goes to
    the entry of [request_methods] of that name, any other method to the
    generic call under its upper-cased name; both receive the same URL and
    the same body.  What an entry of the table then sends is the transport
    library's business and is not settled here. *)
Lemma dispatch_routing (method uri : string) (data : value) (extra : kwargs) :
  (method ∈ request_methods →
     dispatch method uri data extra = HelperCall method uri data [])
  ∧ (method ∉ request_methods →
     dispatch method uri data extra = RequestCall (upper method) uri data []).
Proof.
  split.
  - intros Hin. unfold dispatch. by rewrite bool_decide_eq_true_2.
  - intros Hout. unfold dispatch. by rewrite bool_decide_eq_false_2.
Qed.

(** C6: the keyword arguments of [call] do not reach the transport: the
    invocation carries no option besides [json], and the outcome of [call]
    is the one it has without them. *)
Theorem call_drops_transport_options :
  dispatch "GET" "http://api/rats" (VDict []) [("timeout", VInt 5)]
  = HelperCall "GET" "http://api/rats" (VDict []) []
  ∧ (∀ method uri data extra,
       call_options (dispatch method uri data extra) = [])
  ∧ (∀ transport lookup method uri data statuses extra,
       call transport lookup method uri data statuses extra
       = call transport lookup method uri data statuses []).
Proof.
  split; [reflexivity|]. split.
  - intros method uri data extra. unfold dispatch.
    by case_bool_decide.
  - reflexivity.
Qed.

(** ** [call]: resolving the URI *)

(** C2: a non-empty sequence given as [uri] is not joined.  It reaches
    [urljoin] as one fragment, is yielded as it is, and [str.join] rejects
    it with a [TypeError] before any request is made; joining its elements
    would have given the URL. *)
Theorem call_sequence_uri_not_joined :
  urljoin [VStr "http://api"; VStr "rats"] = Ok "http://api/rats"
  ∧ resolve_uri (VList [VStr "http://api"; VStr "rats"])
    = Raise (plain_exn TypeError)
  ∧ (∀ transport lookup method first others data statuses extra,
       call transport lookup method (VList (first :: others)) data statuses extra
       = Raise (plain_exn TypeError)).
Proof. repeat split. Qed.

(** ** [call]: status validation *)

Section Status.

Variable lookup : value → result value.

Lemma check_status_default statuses r :
  statuses_given statuses = false →
  check_status lookup statuses r = raise_for_status r.
Proof. intros Hs. unfold check_status. by rewrite Hs. Qed.

Lemma check_status_accepted statuses r :
  statuses_given statuses = true →
  in_statuses (status_code r) statuses = true →
  check_status lookup statuses r = Ok tt.
Proof. intros Hs Hin. unfold check_status. by rewrite Hs, Hin. Qed.

(** A status outside a non-empty acceptable set: building the error reads
    the attribute [status], which the response does not have. *)
Lemma check_status_rejected statuses r :
  statuses_given statuses = true →
  in_statuses (status_code r) statuses = false →
  check_status lookup statuses r = Raise (plain_exn AttributeError).
Proof. intros Hs Hin. unfold check_status. by rewrite Hs, Hin. Qed.

(** An empty acceptable set counts as none. *)
Lemma check_status_empty_set r :
  check_status lookup (Some ∅) r = check_status lookup None r.
Proof. reflexivity. Qed.

End Status.

(** C3: when a non-empty acceptable set is given and the status of the
    response is not in it, [call] does not raise an [HTTPError] carrying the
    status: it ends in the [AttributeError] of reading [response.status],
    which neither [except] clause catches. *)
Theorem call_rejected_status_attribute_error
    (transport : transport_call → result Response)
    (lookup : value → result value)
    (method uri : string) (data : value) (statuses : option (gset Z))
    (extra : kwargs) (r : Response) :
  transport (dispatch method uri (if truthy data then data else VDict []) extra)
  = Ok r →
  statuses_given statuses = true →
  in_statuses (status_code r) statuses = false →
  call transport lookup method (VStr uri) data statuses extra
  = Raise (plain_exn AttributeError).
Proof.
  intros Hsend Hgiven Hout.
  unfold call, try_request. cbn [resolve_uri mbind result_bind].
  rewrite Hsend. cbn [mbind result_bind].
  by rewrite check_status_rejected.
Qed.

Lemma call_rejected_status_attribute_error_witness :
  call (answering (mkResponse 404 None)) sample_lookup
       "GET" (VStr "http://api/rats") VNone (Some {[200]}) []
  = Raise (plain_exn AttributeError).
Proof.
  apply (call_rejected_status_attribute_error
           (answering (mkResponse 404 None)) sample_lookup
           "GET" "http://api/rats" VNone (Some {[200]}) []
           (mkResponse 404 None));
    reflexivity.
Defined.

(** ** [call]: decoding and classifying the payload *)

Section Payload.

Variable transport : transport_call → result Response.
Variable lookup : value → result value.


Lemma call_stages method uri data statuses extra :
  call transport lookup method uri data statuses extra
  = response ← request_stage transport lookup method uri data statuses extra;
    json ← decode_json response;
    classify json.
Proof.
  unfold call, request_stage.
  by destruct (resolve_uri uri).
Qed.

(** A string URI, a transport that answers and a status that passes
    validation get [call] past its first [try]. *)
Lemma request_stage_ok method uri data statuses extra r :
  transport (dispatch method uri (if truthy data then data else VDict []) extra)
  = Ok r →
  check_status lookup statuses r = Ok tt →
  request_stage transport lookup method (VStr uri) data statuses extra = Ok r.
Proof.
  intros Hsend Hstatus. unfold request_stage, try_request.
  cbn [resolve_uri mbind result_bind].
  rewrite Hsend. cbn [mbind result_bind]. by rewrite Hstatus.
Qed.

(** The default policy: a 4xx or 5xx status becomes an [HTTPError] whose
    details are the first item of the status-code table's entry. *)
Lemma call_default_status_failure method uri data statuses extra r names details :
  transport (dispatch method uri (if truthy data then data else VDict []) extra)
  = Ok r →
  statuses_given statuses = false →
  (400 <=? status_code r) && (status_code r <? 600) = true →
  lookup (VInt (status_code r)) = Ok names →
  getitem_first names = Ok details →
  call transport lookup method (VStr uri) data statuses extra
  = Raise (mkExn HTTPError (VInt (status_code r)) details VNone None
             (Some (mkExn RequestsHTTPError VNone VNone VNone (Some r) None))).
Proof.
  intros Hsend Hs Hrange Hnames Hdetails.
  unfold call, try_request. cbn [resolve_uri mbind result_bind].
  rewrite Hsend. cbn [mbind result_bind].
  rewrite check_status_default by done.
  unfold raise_for_status. rewrite Hrange.
  cbn [mbind result_bind handle_request_errors].
  change (catches RequestsHTTPError _) with true.
  cbn [e_response mbind result_bind].
  change (Response_getattr r "status_code") with (Ok (VInt (status_code r))).
  cbn [mbind result_bind]. rewrite Hnames. cbn [mbind result_bind].
  rewrite Hdetails. reflexivity.
Qed.

(** Any other failure of the transport library becomes a bare
    [BadResponseError] with the failure as its cause. *)
Lemma call_transport_failure method uri data statuses extra ex :
  transport (dispatch method uri (if truthy data then data else VDict []) extra)
  = Raise ex →
  catches RequestsHTTPError ex = false →
  catches RequestException ex = true →
  call transport lookup method (VStr uri) data statuses extra
  = Raise (mkExn BadResponseError VNone VNone VNone None (Some ex)).
Proof.
  intros Hsend Hhttp Hreq.
  unfold call, try_request. cbn [resolve_uri mbind result_bind].
  rewrite Hsend. cbn [mbind result_bind handle_request_errors].
  by rewrite Hhttp, Hreq.
Qed.

(** C8 (as amended): once a response has passed status validation, a body
    that is not valid JSON makes [call] raise a [BadJSONError] with code
    ['2608'] and details ["API didn't return valid JSON."]. *)
Theorem call_invalid_json method uri data statuses extra r :
  request_stage transport lookup method uri data statuses extra = Ok r →
  resp_json r = None →
  ∃ ex,
    call transport lookup method uri data statuses extra = Raise ex
    ∧ e_class ex = BadJSONError
    ∧ e_code ex = VStr "2608"
    ∧ e_details ex = VStr "API didn't return valid JSON."
    ∧ e_json ex = VNone
    ∧ e_cause ex = Some (plain_exn ValueError).
Proof.
  intros Hstage Hjson. rewrite call_stages, Hstage.
  cbn [mbind result_bind]. unfold decode_json. rewrite Hjson.
  eexists. split; [reflexivity|]. repeat split.
Qed.

(** C4 (as amended): once a response has passed status validation and its
    JSON is a mapping with an ['errors'] key whose value has a mapping as
    first element, [call] raises an [APIError] (the generic class itself)
    whose code and details are that element's ['code'] and ['details']
    ([None] when absent) and whose [json] is the whole decoded mapping. *)
Theorem call_errors_payload method uri data statuses extra r
    entries errors err :
  request_stage transport lookup method uri data statuses extra = Ok r →
  resp_json r = Some (VDict entries) →
  dict_lookup "errors" entries = Some errors →
  getitem_first errors = Ok (VDict err) →
  call transport lookup method uri data statuses extra
  = Raise (mkExn APIError
             (default VNone (dict_lookup "code" err))
             (default VNone (dict_lookup "details" err))
             (VDict entries) None None).
Proof.
  intros Hstage Hjson Herrors Hfirst. rewrite call_stages, Hstage.
  cbn [mbind result_bind]. unfold decode_json. rewrite Hjson.
  cbn [mbind result_bind]. unfold classify.
  cbn [contains getitem_key mbind result_bind]. rewrite Herrors.
  rewrite bool_decide_eq_true_2 by by eexists.
  cbn [mbind result_bind]. rewrite Hfirst.
  reflexivity.
Qed.

(** C5: once a response has passed status validation and its JSON is a
    mapping without an ['errors'] key, [call] raises a [BadResponseError]
    with the fixed details and the mapping attached when there is no
    ['data'] key, and returns the mapping unchanged when there is one. *)
Theorem call_data_payload method uri data statuses extra r entries :
  request_stage transport lookup method uri data statuses extra = Ok r →
  resp_json r = Some (VDict entries) →
  dict_lookup "errors" entries = None →
  (dict_lookup "data" entries = None →
     call transport lookup method uri data statuses extra
     = Raise (mkExn BadResponseError VNone
                (VStr "Did not receive a data field in a non-error response.")
                (VDict entries) None None))
  ∧ (is_Some (dict_lookup "data" entries) →
     call transport lookup method uri data statuses extra
     = Ok (VDict entries)).
Proof.
  intros Hstage Hjson Herrors. rewrite call_stages, Hstage.
  cbn [mbind result_bind]. unfold decode_json. rewrite Hjson.
  cbn [mbind result_bind]. unfold classify.
  cbn [contains mbind result_bind]. rewrite Herrors.
  rewrite (bool_decide_eq_false_2 (is_Some None)) by by intros [? ?].
  cbn [mbind result_bind].
  split.
  - intros ->. rewrite (bool_decide_eq_false_2 (is_Some None)) by by intros [? ?].
    reflexivity.
  - intros Hdata. by rewrite bool_decide_eq_true_2.
Qed.

End Payload.

(** Closed instances of the payload theorems: a transport answering 200. *)

Lemma call_invalid_json_witness :
  ∃ ex,
    call (answering (mkResponse 200 None)) sample_lookup
         "GET" (VStr "http://api/rats") VNone None [] = Raise ex
    ∧ e_class ex = BadJSONError
    ∧ e_code ex = VStr "2608"
    ∧ e_details ex = VStr "API didn't return valid JSON."
    ∧ e_json ex = VNone
    ∧ e_cause ex = Some (plain_exn ValueError).
Proof.
  apply (call_invalid_json (answering (mkResponse 200 None)) sample_lookup
           "GET" (VStr "http://api/rats") VNone None [] (mkResponse 200 None));
    reflexivity.
Defined.

Lemma call_errors_payload_witness :
  call (answering
          (mkResponse 200
             (Some (VDict [("errors",
                            VList [VDict [("code", VStr "X");
                                          ("details", VStr "Y")]])]))))
       sample_lookup "POST" (VStr "http://api/rats") VNone (Some {[200; 201]}) []
  = Raise (mkExn APIError (VStr "X") (VStr "Y")
             (VDict [("errors",
                      VList [VDict [("code", VStr "X");
                                    ("details", VStr "Y")]])])
             None None).
Proof.
  apply (call_errors_payload _ sample_lookup
           "POST" (VStr "http://api/rats") VNone (Some {[200; 201]}) []
           (mkResponse 200
              (Some (VDict [("errors",
                             VList [VDict [("code", VStr "X");
                                           ("details", VStr "Y")]])])))
           [("errors", VList [VDict [("code", VStr "X"); ("details", VStr "Y")]])]
           (VList [VDict [("code", VStr "X"); ("details", VStr "Y")]])
           [("code", VStr "X"); ("details", VStr "Y")]);
    reflexivity.
Defined.

Lemma call_data_payload_witness :
  call (answering (mkResponse 201 (Some (VDict [("data", VDict [("id", VInt 7)])]))))
       sample_lookup "GET" (VStr "http://api/rats") VNone (Some {[200; 201]}) []
  = Ok (VDict [("data", VDict [("id", VInt 7)])])
  ∧ call (answering (mkResponse 200 (Some (VDict []))))
         sample_lookup "GET" (VStr "http://api/rats") VNone None []
    = Raise (mkExn BadResponseError VNone
               (VStr "Did not receive a data field in a non-error response.")
               (VDict []) None None).
Proof.
  split.
  - apply (call_data_payload _ sample_lookup
             "GET" (VStr "http://api/rats") VNone (Some {[200; 201]}) []
             (mkResponse 201 (Some (VDict [("data", VDict [("id", VInt 7)])])))
             [("data", VDict [("id", VInt 7)])]);
      try reflexivity.
    by eexists.
  - apply (call_data_payload _ sample_lookup
             "GET" (VStr "http://api/rats") VNone None []
             (mkResponse 200 (Some (VDict []))) []);
      reflexivity.
Defined.

(** C4 as first stated fails: a response whose decoded JSON holds the
    ['errors'] entry but whose status is 404 does not get as far as the
    payload under the default policy.  Status validation comes first, so
    [call] ends in the failure of that stage (the [TypeError] of
    subscripting the status-code module, or an [HTTPError] with a table
    that answers), not in the [APIError] built from the entry. *)
Lemma call_errors_payload_counterexample :
  resp_json
    (mkResponse 404
       (Some (VDict [("errors",
                      VList [VDict [("code", VStr "X");
                                    ("details", VStr "Y")]])])))
  = Some (VDict [("errors",
                  VList [VDict [("code", VStr "X"); ("details", VStr "Y")]])])
  ∧ call (answering
            (mkResponse 404
               (Some (VDict [("errors",
                              VList [VDict [("code", VStr "X");
                                            ("details", VStr "Y")]])]))))
         module_subscript "GET" (VStr "http://api/rats") VNone None []
    = Raise (plain_exn TypeError)
  ∧ call (answering
            (mkResponse 404
               (Some (VDict [("errors",
                              VList [VDict [("code", VStr "X");
                                            ("details", VStr "Y")]])]))))
         module_subscript "GET" (VStr "http://api/rats") VNone None []
    ≠ Raise (mkExn APIError (VStr "X") (VStr "Y")
               (VDict [("errors",
                        VList [VDict [("code", VStr "X");
                                      ("details", VStr "Y")]])])
               None None)
  ∧ ∃ ex,
      call (answering
              (mkResponse 404
                 (Some (VDict [("errors",
                                VList [VDict [("code", VStr "X");
                                              ("details", VStr "Y")]])]))))
           sample_lookup "GET" (VStr "http://api/rats") VNone None []
      = Raise ex
      ∧ e_class ex = HTTPError ∧ e_code ex = VInt 404.
Proof.
  split; [reflexivity|]. split; [reflexivity|]. split; [discriminate|].
  eexists. split; [reflexivity|]. split; reflexivity.
Qed.

(** C8 as first stated fails: a response whose body is not valid JSON but
    whose status is 500 is not decoded under the default policy.  Status
    validation comes first, so [call] ends in the failure of that stage, not
    in a [BadJSONError]. *)
Lemma call_invalid_json_counterexample :
  resp_json (mkResponse 500 None) = None
  ∧ call (answering (mkResponse 500 None))
         module_subscript "GET" (VStr "http://api/rats") VNone None []
    = Raise (plain_exn TypeError)
  ∧ (∀ ex,
       call (answering (mkResponse 500 None))
            module_subscript "GET" (VStr "http://api/rats") VNone None []
       = Raise ex →
       e_class ex ≠ BadJSONError)
  ∧ ∃ ex,
      call (answering (mkResponse 500 None))
           sample_lookup "GET" (VStr "http://api/rats") VNone None []
      = Raise ex
      ∧ e_class ex = HTTPError ∧ e_code ex = VInt 500.
Proof.
  split; [reflexivity|]. split; [reflexivity|]. split.
  - intros ex [= <-]. discriminate.
  - eexists. split; [reflexivity|]. split; reflexivity.
Qed.

(** * Further properties *)

(** ** [urljoin] *)

Lemma gen_ignores_falsy (parts : list value) : ∀ prev,
  _gen prev parts = _gen prev (List.filter truthy parts).
Proof.
  induction parts as [|part rest IH]; intros prev; [done|].
  cbn [List.filter]. destruct (truthy part) eqn:Hpart.
  - cbn [_gen]. rewrite Hpart. cbn [negb].
    destruct (negb (truthy prev)); [by rewrite IH|].
    destruct (getitem_last prev) as [pl|e]; cbn [mbind result_bind]; [|done].
    destruct (getitem_first part) as [p0|e]; cbn [mbind result_bind]; [|done].
    destruct (xorb (is_slash pl) (is_slash p0)); [by rewrite IH|].
    destruct (is_slash p0); [|by rewrite IH].
    destruct (slice_from_1 part) as [stripped|e]; cbn [mbind result_bind];
      [by rewrite IH | done].
  - cbn [_gen]. rewrite Hpart. cbn [negb]. apply IH.
Qed.

(** X1: arguments that are empty strings, or falsy in any other way
    ([None], [0], empty sequences or mappings), have no effect on the result
    of [urljoin], wherever they stand. *)
Theorem urljoin_ignores_falsy_parts (parts : list value) :
  urljoin parts = urljoin (List.filter truthy parts).
Proof. unfold urljoin. by rewrite gen_ignores_falsy. Qed.

Lemma str_join_empty_strings (out : list string) :
  ∃ s, str_join_empty (VStr <$> out) = Ok s.
Proof.
  induction out as [|piece out [s IH]]; [by eexists|].
  cbn [fmap list_fmap str_join_empty]. rewrite IH. by eexists.
Qed.

Lemma gen_strings (ps : list string) : ∀ prev : option string,
  ∃ out : list string,
    _gen (from_option VStr VNone prev) (fragments ps) = Ok (VStr <$> out).
Proof.
  induction ps as [|part rest IH]; intros prev; [by exists []|].
  cbn [fragments fmap list_fmap _gen]. rewrite (truthy_VStr part).
  destruct (nonempty part) eqn:Hpart; cbn [negb]; [|apply IH].
  apply nonempty_true in Hpart.
  destruct (IH (Some part)) as [out_part Hout_part].
  cbn [from_option] in Hout_part. unfold fragments in Hout_part.
  assert (∃ out : list string,
            (_gen (VStr part) (VStr <$> rest)
             ≫= λ out, Ok (VStr part :: out)) = Ok (VStr <$> out)) as Hemit.
  { rewrite Hout_part. by exists (part :: out_part). }
  destruct (truthy (from_option VStr VNone prev)) eqn:Hprev; cbn [negb]; [|done].
  destruct prev as [cur|]; [|done].
  cbn [from_option] in *. rewrite truthy_VStr in Hprev.
  apply nonempty_true in Hprev.
  destruct (str_last_nonempty cur Hprev) as [cl Hcl].
  destruct part as [|c0 part']; [done|].
  cbn [getitem_last getitem_first str_first]. rewrite Hcl.
  cbn [mbind result_bind].
  destruct (xorb _ _); [done|].
  destruct (is_slash (char_str c0)).
  - cbn [slice_from_1 str_tail mbind result_bind].
    destruct (IH (Some part')) as [out Hout].
    cbn [from_option] in Hout. unfold fragments in Hout.
    rewrite Hout. by exists (part' :: out).
  - rewrite Hout_part. by exists ("/" :: String c0 part' :: out_part).
Qed.

(** X2: on string arguments [urljoin] never raises: whatever the fragments,
    it returns a string. *)
Theorem urljoin_strings_never_raises (ps : list string) :
  ∃ s, urljoin (fragments ps) = Ok s.
Proof.
  unfold urljoin. destruct (gen_strings ps None) as [out Hout].
  cbn [from_option] in Hout. rewrite Hout.
  apply str_join_empty_strings.
Qed.

Lemma str_app_assoc (a b c : string) : (a +:+ b) +:+ c = a +:+ b +:+ c.
Proof.
  induction a as [|ch a IH]; [done|].
  by rewrite !str_app_cons, IH.
Qed.

Lemma str_init_last (s : string) (c : ascii) :
  str_last s = Some c → s = str_init s +:+ String c EmptyString.
Proof.
  induction s as [|ch s IH]; [done|].
  destruct s as [|ch' s'].
  - cbn. by intros [= ->].
  - intros Hlast. change (str_last (String ch (String ch' s')))
      with (str_last (String ch' s')) in Hlast.
    change (str_init (String ch (String ch' s')))
      with (String ch (str_init (String ch' s'))).
    rewrite str_app_cons. f_equal. by apply IH.
Qed.

Lemma rstrip1_slash (s : string) :
  ends_with_slash s = true → s = rstrip1 s +:+ "/".
Proof.
  intros Hend. unfold rstrip1. rewrite Hend.
  apply bool_decide_eq_true in Hend. by apply str_init_last.
Qed.

Lemma lstrip1_slash (s : string) :
  starts_with_slash s = true → s = "/" +:+ lstrip1 s.
Proof.
  intros Hstart. unfold lstrip1. rewrite Hstart.
  apply bool_decide_eq_true in Hstart.
  destruct s as [|c s]; [done|]. cbn in Hstart. by injection Hstart as ->.
Qed.

(** What the loop emits at a junction leaves exactly one ['/'] between the
    two fragments, once each has lost the slash it carried there. *)
Lemma junction_trim (cur prev q : string) :
  ends_with_slash cur = ends_with_slash prev →
  cur +:+ junction prev q = rstrip1 cur +:+ "/" +:+ lstrip1 q.
Proof.
  intros Hends. unfold junction. rewrite <- Hends.
  destruct (ends_with_slash cur) eqn:Hcur, (starts_with_slash q) eqn:Hq;
    cbn [xorb].
  - rewrite (rstrip1_slash cur Hcur) at 1. rewrite str_app_assoc.
    unfold lstrip1. by rewrite Hq.
  - rewrite (rstrip1_slash cur Hcur) at 1. rewrite str_app_assoc.
    unfold lstrip1. by rewrite Hq.
  - unfold rstrip1. rewrite Hcur. by rewrite (lstrip1_slash q Hq) at 1.
  - unfold rstrip1, lstrip1. by rewrite Hcur, Hq.
Qed.

Lemma lstrip1_ends (q : string) :
  q ≠ lone_slash → ends_with_slash (lstrip1 q) = ends_with_slash q.
Proof.
  intros Hlone. unfold lstrip1.
  destruct (starts_with_slash q) eqn:Hstart; [|done].
  destruct q as [|c q']; [done|]. cbn [str_tail].
  symmetry. apply ends_with_slash_tail. intros ->.
  apply bool_decide_eq_true in Hstart. cbn in Hstart.
  injection Hstart as ->. by apply Hlone.
Qed.

Lemma slash_join_cons2 (p q : string) (rest : list string) :
  slash_join (p :: q :: rest) = p +:+ "/" +:+ slash_join (q :: rest).
Proof. reflexivity. Qed.

Lemma join_pairwise_trim (rest : list string) : ∀ cur prev : string,
  ends_with_slash cur = ends_with_slash prev →
  Forall (λ q, q ≠ lone_slash) rest →
  cur +:+ join_pairwise prev rest
  = slash_join (match rest with
                | [] => [cur]
                | _ :: _ => rstrip1 cur :: trim_rest rest
                end).
Proof.
  induction rest as [|q rest IH]; intros cur prev Hends Hgood.
  - cbn [join_pairwise]. by rewrite str_app_empty_r.
  - apply Forall_cons in Hgood as [Hlone Hgood].
    cbn [join_pairwise]. rewrite <- str_app_assoc.
    rewrite (junction_trim cur prev q Hends), !str_app_assoc.
    rewrite (IH (lstrip1 q) q (lstrip1_ends q Hlone) Hgood).
    destruct rest as [|q' rest']; reflexivity.
Qed.

(** X3: when no fragment is a lone ['/'], [urljoin] is ["/".join] of the
    non-empty fragments, each trimmed of one slash on every side that faces
    another fragment: at every junction exactly one ['/'] is put between
    what the two fragments keep. *)
Theorem urljoin_trims_junctions (ps : list string) :
  Forall (λ p, p ≠ lone_slash) ps →
  urljoin (fragments ps)
  = Ok (slash_join (trim_junctions (List.filter nonempty ps))).
Proof.
  intros Hlone. rewrite (urljoin_pairwise ps Hlone). f_equal.
  assert (Forall (λ q, q ≠ lone_slash) (List.filter nonempty ps)) as Hgood.
  { apply Forall_forall. intros q Hq.
    apply list_elem_of_In, filter_In in Hq as [Hin _].
    rewrite Forall_forall in Hlone. apply Hlone. by apply list_elem_of_In. }
  destruct (List.filter nonempty ps) as [|p rest]; [done|].
  apply Forall_cons in Hgood as [_ Hgood].
  cbn [join_fragments trim_junctions].
  rewrite (join_pairwise_trim rest p p eq_refl Hgood).
  by destruct rest.
Qed.

Lemma urljoin_trims_junctions_witness :
  urljoin (fragments ["http://api/"; "/rats/"; EmptyString; "//42/"; "x"])
  = Ok "http://api/rats//42/x".
Proof.
  apply (urljoin_trims_junctions
           ["http://api/"; "/rats/"; EmptyString; "//42/"; "x"]).
  repeat constructor; discriminate.
Defined.

Lemma urljoin_two_pairwise (p q : string) :
  p ≠ EmptyString → q ≠ EmptyString →
  urljoin (fragments [p; q]) = Ok (p +:+ junction p q).
Proof.
  intros Hp Hq. unfold urljoin.
  cbn [fragments fmap list_fmap _gen]. rewrite !truthy_VStr.
  apply nonempty_true in Hp as Hp', Hq as Hq'. rewrite Hp', Hq'.
  cbn [negb truthy].
  destruct (str_last_nonempty p Hp) as [cl Hcl].
  destruct q as [|c0 q']; [done|].
  cbn [getitem_last getitem_first str_first]. rewrite Hcl.
  cbn [mbind result_bind]. rewrite !is_slash_char_str.
  unfold junction, starts_with_slash. cbn [str_first str_tail].
  rewrite (ends_with_slash_last p cl Hcl).
  replace (bool_decide (Some c0 = Some slash)) with (bool_decide (c0 = slash)).
  2:{ apply bool_decide_ext. split; congruence. }
  destruct (bool_decide (cl = slash)), (bool_decide (c0 = slash));
    cbn [xorb slice_from_1 str_tail mbind result_bind str_join_empty];
    by rewrite ?str_app_empty_r.
Qed.

(** X4: for two non-empty fragments, whatever they are, [urljoin] returns
    the first without its trailing slash, one ['/'], and the second without
    its leading slash. *)
Theorem urljoin_two_fragments (p q : string) :
  p ≠ EmptyString → q ≠ EmptyString →
  urljoin (fragments [p; q]) = Ok (rstrip1 p +:+ "/" +:+ lstrip1 q).
Proof.
  intros Hp Hq. rewrite (urljoin_two_pairwise p q Hp Hq).
  by rewrite (junction_trim p p q eq_refl).
Qed.

Lemma urljoin_two_fragments_witness :
  urljoin (fragments ["http://api/"; "/"]) = Ok "http://api/".
Proof. apply (urljoin_two_fragments "http://api/" "/"); discriminate. Defined.

Lemma filter_truthy_fragments (ps : list string) :
  List.filter truthy (fragments ps) = fragments (List.filter nonempty ps).
Proof.
  unfold fragments. induction ps as [|part rest IH]; [done|].
  cbn [fmap list_fmap List.filter]. rewrite truthy_VStr.
  destruct (nonempty part); cbn [fmap list_fmap]; by rewrite IH.
Qed.

Lemma urljoin_nonempty_fragments (ps : list string) :
  urljoin (fragments ps) = urljoin (fragments (List.filter nonempty ps)).
Proof.
  unfold urljoin.
  by rewrite gen_ignores_falsy, filter_truthy_fragments.
Qed.

(** X5: when at most one fragment is non-empty, [urljoin] returns that
    fragment unchanged, slashes included, and the empty string when there
    is none. *)
Theorem urljoin_single_fragment (ps : list string) :
  (List.filter nonempty ps = [] → urljoin (fragments ps) = Ok EmptyString)
  ∧ (∀ p, List.filter nonempty ps = [p] → urljoin (fragments ps) = Ok p).
Proof.
  rewrite urljoin_nonempty_fragments. split.
  - by intros ->.
  - intros p Hp. rewrite Hp.
    assert (nonempty p = true) as Hne.
    { assert (In p (List.filter nonempty ps)) as Hin by (rewrite Hp; by left).
      by apply filter_In in Hin as [_ ?]. }
    unfold urljoin. cbn [fragments fmap list_fmap _gen].
    rewrite truthy_VStr, Hne.
    cbn [negb truthy mbind result_bind str_join_empty].
    by rewrite str_app_empty_r.
Qed.

Lemma urljoin_single_fragment_witness :
  urljoin (fragments [EmptyString; EmptyString]) = Ok EmptyString
  ∧ urljoin (fragments [EmptyString; "/rats/"; EmptyString]) = Ok "/rats/".
Proof.
  split.
  - destruct (urljoin_single_fragment [EmptyString; EmptyString]) as [Hnone _].
    apply Hnone. reflexivity.
  - destruct (urljoin_single_fragment [EmptyString; "/rats/"; EmptyString])
      as [_ Hone].
    apply Hone. reflexivity.
Defined.

(** ** [urljoin]: joining in steps *)

Lemma str_app_nonempty_r (a b : string) :
  b ≠ EmptyString → a +:+ b ≠ EmptyString.
Proof. intros Hb. destruct a; [done|]. by rewrite str_app_cons. Qed.

Lemma str_last_app (a b : string) :
  b ≠ EmptyString → str_last (a +:+ b) = str_last b.
Proof.
  intros Hb. induction a as [|c a IH]; [done|].
  rewrite str_app_cons.
  pose proof (str_app_nonempty_r a b Hb) as Hab.
  destruct (a +:+ b) as [|c' rest] eqn:Happ; [done|].
  exact IH.
Qed.

Lemma ends_with_slash_app (a b : string) :
  b ≠ EmptyString → ends_with_slash (a +:+ b) = ends_with_slash b.
Proof. intros Hb. unfold ends_with_slash. by rewrite str_last_app. Qed.

Lemma junction_nonempty (prev q : string) :
  q ≠ EmptyString → q ≠ lone_slash → junction prev q ≠ EmptyString.
Proof.
  intros Hq Hlone. unfold junction.
  destruct (xorb _ _); [done|].
  destruct (starts_with_slash q) eqn:Hstart; [|done].
  destruct q as [|c q']; [done|]. cbn [str_tail]. intros ->.
  apply bool_decide_eq_true in Hstart. cbn in Hstart.
  injection Hstart as ->. by apply Hlone.
Qed.

Lemma junction_ends (prev q : string) :
  q ≠ EmptyString → q ≠ lone_slash →
  ends_with_slash (junction prev q) = ends_with_slash q.
Proof.
  intros Hq Hlone. pose proof (junction_nonempty prev q Hq Hlone) as Hne.
  unfold junction in *.
  destruct (xorb _ _); [done|].
  destruct (starts_with_slash q) eqn:Hstart.
  - destruct q as [|c q']; [done|]. cbn [str_tail] in *.
    symmetry. by apply ends_with_slash_tail.
  - by apply ends_with_slash_app.
Qed.

Lemma join_pairwise_ends (a b : string) (qs : list string) :
  ends_with_slash a = ends_with_slash b →
  join_pairwise a qs = join_pairwise b qs.
Proof.
  intros Hends. destruct qs as [|q qs]; [done|].
  cbn [join_pairwise]. unfold junction. by rewrite Hends.
Qed.

(** Joining a prefix first: the text it produces is non-empty, ends like its
    last fragment, and the rest of the join only depends on that. *)
Lemma join_pairwise_app (ps : list string) : ∀ (prev cur : string) qs,
  cur ≠ EmptyString →
  ends_with_slash cur = ends_with_slash prev →
  Forall (λ p, p ≠ EmptyString ∧ p ≠ lone_slash) ps →
  cur +:+ join_pairwise prev (ps ++ qs)
  = (cur +:+ join_pairwise prev ps)
    +:+ join_pairwise (cur +:+ join_pairwise prev ps) qs
  ∧ cur +:+ join_pairwise prev ps ≠ EmptyString.
Proof.
  induction ps as [|p ps IH]; intros prev cur qs Hcur Hends Hgood.
  - cbn [app join_pairwise]. rewrite str_app_empty_r. split; [|done].
    f_equal. by apply join_pairwise_ends.
  - apply Forall_cons in Hgood as [[Hp Hlone] Hgood].
    cbn [app join_pairwise]. rewrite <- !str_app_assoc.
    apply (IH p (cur +:+ junction prev p) qs); [| |done].
    + apply str_app_nonempty_r. by apply junction_nonempty.
    + rewrite ends_with_slash_app by by apply junction_nonempty.
      by apply junction_ends.
Qed.

Lemma str_app_lone_slash (a b : string) :
  a ≠ EmptyString → a +:+ b = lone_slash → a = lone_slash.
Proof.
  intros Ha. destruct a as [|c a]; [done|]. rewrite str_app_cons.
  unfold lone_slash. intros [= -> Hrest]. by destruct a.
Qed.

(** X20: [urljoin] can be applied in steps.  When no fragment is a lone
    ['/'], joining some fragments first and then joining the result with
    further fragments gives what joining them all at once gives. *)
Theorem urljoin_in_steps (ps qs : list string) (s : string) :
  Forall (λ p, p ≠ lone_slash) ps →
  Forall (λ q, q ≠ lone_slash) qs →
  urljoin (fragments ps) = Ok s →
  urljoin (fragments (s :: qs)) = urljoin (fragments (ps ++ qs)).
Proof.
  intros Hps Hqs Hjoin.
  rewrite (urljoin_pairwise ps Hps) in Hjoin. injection Hjoin as <-.
  rewrite (urljoin_pairwise (ps ++ qs)) by by apply Forall_app.
  rewrite List.filter_app.
  assert (Forall (λ p, p ≠ EmptyString ∧ p ≠ lone_slash)
            (List.filter nonempty ps)) as Hgood.
  { apply Forall_forall. intros p Hp.
    apply list_elem_of_In, filter_In in Hp as [Hin Hne].
    split; [by apply nonempty_true|].
    rewrite Forall_forall in Hps. apply Hps. by apply list_elem_of_In. }
  destruct (List.filter nonempty ps) as [|p rest] eqn:Hfilter.
  - cbn [join_fragments app].
    rewrite urljoin_nonempty_fragments. cbn [List.filter].
    change (nonempty EmptyString) with false. cbn iota.
    rewrite <- urljoin_nonempty_fragments. by apply urljoin_pairwise.
  - apply Forall_cons in Hgood as [[Hp Hlone] Hgood].
    cbn [join_fragments app].
    destruct (join_pairwise_app rest p p (List.filter nonempty qs)
                Hp eq_refl Hgood) as [Happ Hne].
    rewrite urljoin_pairwise.
    2:{ apply Forall_cons. split; [|done].
        intros Hs. by apply str_app_lone_slash in Hs. }
    cbn [List.filter]. apply nonempty_true in Hne as ->.
    cbn [join_fragments]. by rewrite Happ.
Qed.

Lemma urljoin_in_steps_witness :
  urljoin (fragments ["http://api/rats/"; "/42/"; "notes"])
  = urljoin (fragments ["http://api/"; "/rats/"; "/42/"; "notes"]).
Proof.
  apply (urljoin_in_steps ["http://api/"; "/rats/"] ["/42/"; "notes"]
           "http://api/rats/").
  - repeat constructor; discriminate.
  - repeat constructor; discriminate.
  - reflexivity.
Defined.

(** ** [call]: status validation *)

Lemma check_status_passes (lookup : value → result value)
    (statuses : option (gset Z)) (r : Response) :
  check_status lookup statuses r = Ok tt
  ↔ status_passes statuses (status_code r) = true.
Proof.
  unfold status_passes.
  destruct (statuses_given statuses) eqn:Hgiven.
  - destruct (in_statuses (status_code r) statuses) eqn:Hin.
    + by rewrite check_status_accepted.
    + by rewrite check_status_rejected.
  - rewrite check_status_default by done. unfold raise_for_status.
    by destruct ((400 <=? status_code r) && (status_code r <? 600)).
Qed.

Lemma call_with_response (transport : transport_call → result Response)
    (lookup : value → result value) (method uri : string) (data : value)
    (statuses : option (gset Z)) (extra : kwargs) (r : Response) :
  transport (dispatch method uri (if truthy data then data else VDict []) extra)
  = Ok r →
  call transport lookup method (VStr uri) data statuses extra
  = response ← handle_request_errors lookup
                 (_ ← check_status lookup statuses r; Ok r);
    json ← decode_json response;
    classify json.
Proof.
  intros Hsend. unfold call, try_request.
  cbn [resolve_uri mbind result_bind]. by rewrite Hsend.
Qed.

(** X6: once the transport has answered, the status alone decides whether
    the body is looked at.  A status in a non-empty acceptable set, or,
    without such a set, any status outside 400..599, hands the response to
    JSON decoding and classification, even a 4xx or 5xx status that the set
    lists; any other status makes [call] fail whatever the body holds. *)
Theorem call_status_validation (transport : transport_call → result Response)
    (lookup : value → result value) (method uri : string) (data : value)
    (statuses : option (gset Z)) (extra : kwargs) (r : Response) :
  transport (dispatch method uri (if truthy data then data else VDict []) extra)
  = Ok r →
  (status_passes statuses (status_code r) = true →
     call transport lookup method (VStr uri) data statuses extra
     = decode_json r ≫= classify)
  ∧ (status_passes statuses (status_code r) = false →
     ∃ ex, call transport lookup method (VStr uri) data statuses extra
           = Raise ex).
Proof.
  intros Hsend. rewrite (call_with_response _ _ _ _ _ _ _ r Hsend). split.
  - intros Hpass. apply check_status_passes with (lookup := lookup) in Hpass.
    by rewrite Hpass.
  - intros Hfail. unfold status_passes in Hfail.
    destruct (statuses_given statuses) eqn:Hgiven.
    + rewrite check_status_rejected by done. by eexists.
    + rewrite check_status_default by done. unfold raise_for_status.
      apply negb_false_iff in Hfail. rewrite Hfail.
      cbn [mbind result_bind handle_request_errors].
      change (catches RequestsHTTPError _) with true.
      cbn [e_response mbind result_bind].
      change (Response_getattr r "status_code") with (Ok (VInt (status_code r))).
      cbn [mbind result_bind].
      destruct (lookup (VInt (status_code r))) as [names|e];
        cbn [mbind result_bind]; [|by eexists].
      destruct (getitem_first names) as [details|e];
        cbn [mbind result_bind]; by eexists.
Qed.

Lemma call_status_validation_witness :
  call (answering (mkResponse 404 (Some (VDict [("data", VInt 1)]))))
       sample_lookup "GET" (VStr "http://api/rats") VNone (Some {[200; 404]}) []
  = Ok (VDict [("data", VInt 1)])
  ∧ ∃ ex,
      call (answering (mkResponse 404 (Some (VDict [("data", VInt 1)]))))
           sample_lookup "GET" (VStr "http://api/rats") VNone None []
      = Raise ex.
Proof.
  split.
  - destruct (call_status_validation
                (answering (mkResponse 404 (Some (VDict [("data", VInt 1)]))))
                sample_lookup "GET" "http://api/rats" VNone
                (Some {[200; 404]}) []
                (mkResponse 404 (Some (VDict [("data", VInt 1)])))
                eq_refl) as [Hpass _].
    rewrite Hpass; reflexivity.
  - destruct (call_status_validation
                (answering (mkResponse 404 (Some (VDict [("data", VInt 1)]))))
                sample_lookup "GET" "http://api/rats" VNone None []
                (mkResponse 404 (Some (VDict [("data", VInt 1)])))
                eq_refl) as [_ Hfail].
    apply Hfail. reflexivity.
Defined.

(** X7: an empty acceptable-status set is not "accept nothing": [call]
    behaves with it exactly as it does when no set is given. *)
Theorem call_empty_statuses_default
    (transport : transport_call → result Response)
    (lookup : value → result value) (method : string) (uri data : value)
    (extra : kwargs) :
  call transport lookup method uri data (Some ∅) extra
  = call transport lookup method uri data None extra.
Proof.
  unfold call, try_request.
  destruct (resolve_uri uri) as [u|e]; cbn [mbind result_bind]; [|done].
  destruct (transport _) as [r|e]; cbn [mbind result_bind]; [|done].
  by rewrite check_status_empty_set.
Qed.

(** ** [call]: failures of the transport *)

Lemma call_transport_raises (transport : transport_call → result Response)
    (lookup : value → result value) (method uri : string) (data : value)
    (statuses : option (gset Z)) (extra : kwargs) (ex : exn) :
  transport (dispatch method uri (if truthy data then data else VDict []) extra)
  = Raise ex →
  call transport lookup method (VStr uri) data statuses extra
  = response ← handle_request_errors lookup (Raise ex);
    json ← decode_json response;
    classify json.
Proof.
  intros Hsend. unfold call, try_request.
  cbn [resolve_uri mbind result_bind]. by rewrite Hsend.
Qed.

(** X8: when the transport itself raises its HTTP error with a response
    attached, the [except] clause subscripts the status-code table with that
    response's status; when the subscript raises, as subscripting the module
    [requests.status_codes] does, [call] ends in that exception and no
    [HTTPError] of the module is raised. *)
Theorem call_transport_http_error_table_raises
    (transport : transport_call → result Response)
    (lookup : value → result value) (method uri : string) (data : value)
    (statuses : option (gset Z)) (extra : kwargs) (ex e : exn) (r : Response) :
  transport (dispatch method uri (if truthy data then data else VDict []) extra)
  = Raise ex →
  catches RequestsHTTPError ex = true →
  e_response ex = Some r →
  lookup (VInt (status_code r)) = Raise e →
  call transport lookup method (VStr uri) data statuses extra = Raise e.
Proof.
  intros Hsend Hhttp Hresp Htable.
  rewrite (call_transport_raises _ _ _ _ _ _ _ ex Hsend).
  cbn [handle_request_errors]. rewrite Hhttp, Hresp.
  cbn [mbind result_bind].
  change (Response_getattr r "status_code") with (Ok (VInt (status_code r))).
  cbn [mbind result_bind]. by rewrite Htable.
Qed.

Lemma call_transport_http_error_table_raises_witness :
  call (failing (mkExn RequestsHTTPError VNone VNone VNone
                   (Some (mkResponse 404 None)) None))
       module_subscript "GET" (VStr "http://api/rats") VNone None []
  = Raise (plain_exn TypeError).
Proof.
  apply (call_transport_http_error_table_raises _ module_subscript
           "GET" "http://api/rats" VNone None []
           (mkExn RequestsHTTPError VNone VNone VNone
              (Some (mkResponse 404 None)) None)
           (plain_exn TypeError) (mkResponse 404 None));
    reflexivity.
Defined.

(** X9: when the transport raises its HTTP error without a response
    attached, the [except] clause fails on [ex.response.status_code] and
    [call] ends in an [AttributeError], not in one of the module's errors. *)
Theorem call_transport_http_error_without_response
    (transport : transport_call → result Response)
    (lookup : value → result value) (method uri : string) (data : value)
    (statuses : option (gset Z)) (extra : kwargs) (ex : exn) :
  transport (dispatch method uri (if truthy data then data else VDict []) extra)
  = Raise ex →
  catches RequestsHTTPError ex = true →
  e_response ex = None →
  call transport lookup method (VStr uri) data statuses extra
  = Raise (plain_exn AttributeError).
Proof.
  intros Hsend Hhttp Hresp.
  rewrite (call_transport_raises _ _ _ _ _ _ _ ex Hsend).
  cbn [handle_request_errors]. by rewrite Hhttp, Hresp.
Qed.

Lemma call_transport_http_error_without_response_witness :
  call (failing (plain_exn RequestsHTTPError))
       sample_lookup "GET" (VStr "http://api/rats") VNone None []
  = Raise (plain_exn AttributeError).
Proof.
  apply (call_transport_http_error_without_response
           (failing (plain_exn RequestsHTTPError)) sample_lookup
           "GET" "http://api/rats" VNone None []
           (plain_exn RequestsHTTPError));
    reflexivity.
Defined.

(** X10: a connection error, a timeout or any other request exception of
    the transport that is not its HTTP error becomes a [BadResponseError]
    without code, details or JSON, with the transport's exception as its
    cause. *)
Theorem call_request_exception_wrapped
    (transport : transport_call → result Response)
    (lookup : value → result value) (method uri : string) (data : value)
    (statuses : option (gset Z)) (extra : kwargs) (ex : exn) :
  transport (dispatch method uri (if truthy data then data else VDict []) extra)
  = Raise ex →
  e_class ex ∈ [RequestException; RequestsConnectionError; RequestsTimeout] →
  ∃ raised,
    call transport lookup method (VStr uri) data statuses extra = Raise raised
    ∧ e_class raised = BadResponseError
    ∧ e_code raised = VNone ∧ e_details raised = VNone ∧ e_json raised = VNone
    ∧ e_cause raised = Some ex.
Proof.
  intros Hsend Hclass.
  rewrite (call_transport_raises _ _ _ _ _ _ _ ex Hsend).
  cbn [handle_request_errors]. unfold catches.
  rewrite !elem_of_cons, elem_of_nil in Hclass.
  destruct Hclass as [-> | [-> | [-> | []]]]; by eexists.
Qed.

Lemma call_request_exception_wrapped_witness :
  ∃ raised,
    call (failing (plain_exn RequestsTimeout))
         sample_lookup "GET" (VStr "http://api/rats") VNone None []
    = Raise raised
    ∧ e_class raised = BadResponseError
    ∧ e_code raised = VNone ∧ e_details raised = VNone ∧ e_json raised = VNone
    ∧ e_cause raised = Some (plain_exn RequestsTimeout).
Proof.
  apply (call_request_exception_wrapped
           (failing (plain_exn RequestsTimeout)) sample_lookup
           "GET" "http://api/rats" VNone None []
           (plain_exn RequestsTimeout)); [reflexivity|].
  repeat constructor.
Defined.

Lemma not_request_exception (ex : exn) :
  catches RequestException ex = false → catches RequestsHTTPError ex = false.
Proof. unfold catches. by destruct (e_class ex). Qed.

(** X11: an exception of the transport that is not one of its request
    exceptions passes through [call] as it is, neither wrapped nor given a
    cause. *)
Theorem call_foreign_exception_propagates
    (transport : transport_call → result Response)
    (lookup : value → result value) (method uri : string) (data : value)
    (statuses : option (gset Z)) (extra : kwargs) (ex : exn) :
  transport (dispatch method uri (if truthy data then data else VDict []) extra)
  = Raise ex →
  catches RequestException ex = false →
  call transport lookup method (VStr uri) data statuses extra = Raise ex.
Proof.
  intros Hsend Hforeign.
  rewrite (call_transport_raises _ _ _ _ _ _ _ ex Hsend).
  cbn [handle_request_errors].
  by rewrite (not_request_exception ex Hforeign), Hforeign.
Qed.

Lemma call_foreign_exception_propagates_witness :
  call (failing (plain_exn ValueError))
       sample_lookup "GET" (VStr "http://api/rats") VNone None []
  = Raise (plain_exn ValueError).
Proof.
  apply (call_foreign_exception_propagates
           (failing (plain_exn ValueError)) sample_lookup
           "GET" "http://api/rats" VNone None [] (plain_exn ValueError));
    reflexivity.
Defined.

(** ** [call]: the decoded payload *)

(** X12: whenever [call] returns, what it returns is exactly the decoded
    JSON of a response that passed status validation, and that value has
    ['data'] in it and not ['errors']. *)
Theorem call_success_has_data (transport : transport_call → result Response)
    (lookup : value → result value) (method : string) (uri data : value)
    (statuses : option (gset Z)) (extra : kwargs) (v : value) :
  call transport lookup method uri data statuses extra = Ok v →
  ∃ r,
    request_stage transport lookup method uri data statuses extra = Ok r
    ∧ resp_json r = Some v
    ∧ contains "errors" v = Ok false
    ∧ contains "data" v = Ok true.
Proof.
  rewrite call_stages.
  destruct (request_stage _ _ _ _ _ _ _) as [r|e] eqn:Hstage;
    cbn [mbind result_bind]; [|done].
  unfold decode_json. destruct (resp_json r) as [j|] eqn:Hjson;
    cbn [mbind result_bind]; [|done].
  unfold classify.
  destruct (contains "errors" j) as [[|]|e] eqn:Herrors;
    cbn [mbind result_bind]; [| |done].
  - destruct (getitem_key "errors" j) as [errors|e];
      cbn [mbind result_bind]; [|done].
    destruct (getitem_first errors) as [err|e];
      cbn [mbind result_bind]; [|done].
    destruct (dict_get "code" err) as [code|e];
      cbn [mbind result_bind]; [|done].
    by destruct (dict_get "details" err).
  - destruct (contains "data" j) as [[|]|e] eqn:Hdata;
      cbn [mbind result_bind negb]; [|done|done].
    intros [= <-]. by exists r.
Qed.

Lemma call_success_has_data_witness :
  ∃ r,
    request_stage (answering (mkResponse 200 (Some (VDict [("data", VInt 1)]))))
      sample_lookup "GET" (VStr "http://api/rats") VNone None [] = Ok r
    ∧ resp_json r = Some (VDict [("data", VInt 1)])
    ∧ contains "errors" (VDict [("data", VInt 1)]) = Ok false
    ∧ contains "data" (VDict [("data", VInt 1)]) = Ok true.
Proof.
  apply (call_success_has_data
           (answering (mkResponse 200 (Some (VDict [("data", VInt 1)]))))
           sample_lookup "GET" (VStr "http://api/rats") VNone None []).
  reflexivity.
Defined.

Lemma call_with_json (transport : transport_call → result Response)
    (lookup : value → result value) (method : string) (uri data : value)
    (statuses : option (gset Z)) (extra : kwargs) (r : Response) (j : value) :
  request_stage transport lookup method uri data statuses extra = Ok r →
  resp_json r = Some j →
  call transport lookup method uri data statuses extra = classify j.
Proof.
  intros Hstage Hjson. rewrite call_stages, Hstage.
  cbn [mbind result_bind]. unfold decode_json. by rewrite Hjson.
Qed.

(** X13: a body that is valid JSON but a bare [null], boolean or number
    makes [call] end in a [TypeError] from the test ['errors' in json]; it
    is not reported as one of the module's errors. *)
Theorem call_scalar_payload_type_error
    (transport : transport_call → result Response)
    (lookup : value → result value) (method : string) (uri data : value)
    (statuses : option (gset Z)) (extra : kwargs) (r : Response) (j : value) :
  request_stage transport lookup method uri data statuses extra = Ok r →
  resp_json r = Some j →
  (j = VNone ∨ (∃ b, j = VBool b) ∨ (∃ n, j = VInt n)) →
  call transport lookup method uri data statuses extra
  = Raise (plain_exn TypeError).
Proof.
  intros Hstage Hjson Hscalar.
  rewrite (call_with_json _ _ _ _ _ _ _ r j Hstage Hjson).
  by destruct Hscalar as [-> | [[b ->] | [n ->]]].
Qed.

Lemma call_scalar_payload_type_error_witness :
  call (answering (mkResponse 200 (Some (VInt 42))))
       sample_lookup "GET" (VStr "http://api/rats") VNone None []
  = Raise (plain_exn TypeError).
Proof.
  apply (call_scalar_payload_type_error
           (answering (mkResponse 200 (Some (VInt 42)))) sample_lookup
           "GET" (VStr "http://api/rats") VNone None []
           (mkResponse 200 (Some (VInt 42))) (VInt 42));
    [reflexivity | reflexivity |].
  right; right. by exists 42.
Defined.

(** X14: an ['errors'] entry of the wrong shape is not turned into an
    [APIError].  An empty list ends [call] in an [IndexError], [null] in a
    [TypeError], a mapping in a [KeyError], and a list whose first element
    is not a mapping in the [AttributeError] of [err.get]. *)
Theorem call_malformed_errors_payload
    (transport : transport_call → result Response)
    (lookup : value → result value) (method : string) (uri data : value)
    (statuses : option (gset Z)) (extra : kwargs) (r : Response)
    (entries : list (string * value)) (errors : value) :
  request_stage transport lookup method uri data statuses extra = Ok r →
  resp_json r = Some (VDict entries) →
  dict_lookup "errors" entries = Some errors →
  (errors = VList [] →
     call transport lookup method uri data statuses extra
     = Raise (plain_exn IndexError))
  ∧ (errors = VNone →
     call transport lookup method uri data statuses extra
     = Raise (plain_exn TypeError))
  ∧ (∀ d, errors = VDict d →
     call transport lookup method uri data statuses extra
     = Raise (plain_exn KeyError))
  ∧ (∀ first rest, errors = VList (first :: rest) →
     (∀ d, first ≠ VDict d) →
     call transport lookup method uri data statuses extra
     = Raise (plain_exn AttributeError)).
Proof.
  intros Hstage Hjson Herrors.
  rewrite (call_with_json _ _ _ _ _ _ _ r _ Hstage Hjson).
  unfold classify. cbn [contains getitem_key mbind result_bind].
  rewrite Herrors. rewrite bool_decide_eq_true_2 by by eexists.
  cbn [mbind result_bind].
  split; [|split; [|split]].
  - by intros ->.
  - by intros ->.
  - by intros d ->.
  - intros first rest -> Hshape. cbn [getitem_first mbind result_bind].
    destruct first as [| | | | |d]; try done. by destruct (Hshape d).
Qed.

Lemma call_malformed_errors_payload_witness :
  call (answering (mkResponse 200 (Some (VDict [("errors", VList [])]))))
       sample_lookup "GET" (VStr "http://api/rats") VNone None []
  = Raise (plain_exn IndexError)
  ∧ call (answering
            (mkResponse 200 (Some (VDict [("errors", VList [VStr "boom"])]))))
         sample_lookup "GET" (VStr "http://api/rats") VNone None []
    = Raise (plain_exn AttributeError).
Proof.
  split.
  - destruct (call_malformed_errors_payload
                (answering (mkResponse 200 (Some (VDict [("errors", VList [])]))))
                sample_lookup "GET" (VStr "http://api/rats") VNone None []
                (mkResponse 200 (Some (VDict [("errors", VList [])])))
                [("errors", VList [])] (VList [])
                eq_refl eq_refl eq_refl) as [Hempty _].
    apply Hempty. reflexivity.
  - destruct (call_malformed_errors_payload
                (answering
                   (mkResponse 200
                      (Some (VDict [("errors", VList [VStr "boom"])]))))
                sample_lookup "GET" (VStr "http://api/rats") VNone None []
                (mkResponse 200 (Some (VDict [("errors", VList [VStr "boom"])])))
                [("errors", VList [VStr "boom"])] (VList [VStr "boom"])
                eq_refl eq_refl eq_refl) as (_ & _ & _ & Hfirst).
    apply (Hfirst (VStr "boom") []); [reflexivity | discriminate].
Defined.

Lemma contains_list_iff (key : string) (items : list value) :
  contains key (VList items) = Ok true ↔ VStr key ∈ items.
Proof.
  cbn [contains].
  induction items as [|x items IH]; cbn [existsb].
  - split; [done | by intros ?%elem_of_nil].
  - destruct IH as [IHin IHout]. split.
    + intros [= Hor]. apply elem_of_cons.
      apply orb_prop in Hor as [Hx | Hrest].
      * left. destruct x; try done. by apply bool_decide_eq_true in Hx as ->.
      * right. apply IHin. by rewrite Hrest.
    + intros [<- | Hin]%elem_of_cons.
      * by rewrite bool_decide_eq_true_2.
      * apply IHout in Hin as [= ->]. by rewrite orb_true_r.
Qed.

Lemma contains_list_true (key : string) (items : list value) :
  VStr key ∈ items → contains key (VList items) = Ok true.
Proof. apply contains_list_iff. Qed.

Lemma contains_list_false (key : string) (items : list value) :
  VStr key ∉ items → contains key (VList items) = Ok false.
Proof.
  intros Hout. pose proof (contains_list_iff key items) as Hiff.
  cbn [contains] in *. destruct (existsb _ items); [|done].
  destruct Hout. by apply Hiff.
Qed.

(** X15: a body that is a JSON array is not rejected for not being a
    mapping.  When the string ["errors"] is one of its elements [call] ends
    in a [TypeError]; otherwise the array is returned as the result when
    ["data"] is one of its elements, and a [BadResponseError] with the array
    attached is raised when it is not. *)
Theorem call_array_payload
    (transport : transport_call → result Response)
    (lookup : value → result value) (method : string) (uri data : value)
    (statuses : option (gset Z)) (extra : kwargs) (r : Response)
    (items : list value) :
  request_stage transport lookup method uri data statuses extra = Ok r →
  resp_json r = Some (VList items) →
  (VStr "errors" ∈ items →
     call transport lookup method uri data statuses extra
     = Raise (plain_exn TypeError))
  ∧ (VStr "errors" ∉ items → VStr "data" ∈ items →
     call transport lookup method uri data statuses extra
     = Ok (VList items))
  ∧ (VStr "errors" ∉ items → VStr "data" ∉ items →
     call transport lookup method uri data statuses extra
     = Raise (mkExn BadResponseError VNone
                (VStr "Did not receive a data field in a non-error response.")
                (VList items) None None)).
Proof.
  intros Hstage Hjson.
  rewrite (call_with_json _ _ _ _ _ _ _ r _ Hstage Hjson).
  unfold classify.
  split; [|split].
  - intros Herr. by rewrite (contains_list_true _ _ Herr).
  - intros Herr Hdata. rewrite (contains_list_false _ _ Herr).
    cbn [mbind result_bind]. by rewrite (contains_list_true _ _ Hdata).
  - intros Herr Hdata. rewrite (contains_list_false _ _ Herr).
    cbn [mbind result_bind]. by rewrite (contains_list_false _ _ Hdata).
Qed.

Lemma call_array_payload_witness :
  call (answering (mkResponse 200 (Some (VList [VInt 1; VStr "data"]))))
       sample_lookup "GET" (VStr "http://api/rats") VNone None []
  = Ok (VList [VInt 1; VStr "data"]).
Proof.
  destruct (call_array_payload
              (answering (mkResponse 200 (Some (VList [VInt 1; VStr "data"]))))
              sample_lookup "GET" (VStr "http://api/rats") VNone None []
              (mkResponse 200 (Some (VList [VInt 1; VStr "data"])))
              [VInt 1; VStr "data"] eq_refl eq_refl) as (_ & Hdata & _).
  apply Hdata.
  - rewrite !not_elem_of_cons. repeat split; try discriminate.
    apply not_elem_of_nil.
  - repeat constructor.
Defined.

(** ** The exception classes and the [except] clauses *)

(** X16: [except APIError] catches exactly the five classes the module
    defines, and none of the interpreter's or the transport's. *)
Theorem APIError_catches_module_classes (c : exn_class) :
  issubclass c APIError = true ↔ c ∈ module_classes.
Proof.
  unfold module_classes. rewrite !elem_of_cons, elem_of_nil.
  destruct c; cbn; split; try done; try tauto;
    intros [? | [? | [? | [? | [? | []]]]]]; done.
Qed.

(** X17: the module's [HTTPError] is not the transport's: an exception of
    any class the module defines passes both [except] clauses of [call]
    untouched. *)
Theorem module_errors_pass_except_clauses
    (lookup : value → result value) (ex : exn) :
  issubclass (e_class ex) APIError = true →
  handle_request_errors lookup (Raise ex) = Raise ex.
Proof.
  intros Hmodule. cbn [handle_request_errors]. unfold catches.
  by destruct (e_class ex).
Qed.

Lemma module_errors_pass_except_clauses_witness :
  handle_request_errors sample_lookup
    (Raise (APIError_init HTTPError (VInt 404) (VStr "not_found") VNone))
  = Raise (APIError_init HTTPError (VInt 404) (VStr "not_found") VNone).
Proof.
  apply (module_errors_pass_except_clauses sample_lookup
           (APIError_init HTTPError (VInt 404) (VStr "not_found") VNone)).
  reflexivity.
Defined.

(** ** What [call] raises *)

Lemma getitem_first_raises (v : value) (ex : exn) :
  getitem_first v = Raise ex → raised_by_call (e_class ex) = true.
Proof.
  destruct v as [| | |s|items|d]; cbn [getitem_first];
    try (by intros [= <-]).
  - destruct (str_first s); [done | by intros [= <-]].
  - destruct items; [by intros [= <-] | done].
Qed.

Lemma contains_raises (key : string) (v : value) (ex : exn) :
  contains key v = Raise ex → raised_by_call (e_class ex) = true.
Proof. destruct v; cbn [contains]; try done; by intros [= <-]. Qed.

Lemma getitem_key_raises (key : string) (v : value) (ex : exn) :
  getitem_key key v = Raise ex → raised_by_call (e_class ex) = true.
Proof.
  destruct v as [| | | | |d]; cbn [getitem_key]; try (by intros [= <-]).
  destruct (dict_lookup key d); [done | by intros [= <-]].
Qed.

Lemma dict_get_raises (key : string) (v : value) (ex : exn) :
  dict_get key v = Raise ex → raised_by_call (e_class ex) = true.
Proof. destruct v; cbn [dict_get]; try done; by intros [= <-]. Qed.

Lemma classify_raises (json : value) (ex : exn) :
  classify json = Raise ex → raised_by_call (e_class ex) = true.
Proof.
  unfold classify.
  destruct (contains "errors" json) as [[|]|e] eqn:Herrors;
    cbn [mbind result_bind].
  - destruct (getitem_key "errors" json) as [errors|e] eqn:Hkey;
      cbn [mbind result_bind];
      [|intros [= <-]; by eapply getitem_key_raises].
    destruct (getitem_first errors) as [err|e] eqn:Hfirst;
      cbn [mbind result_bind];
      [|intros [= <-]; by eapply getitem_first_raises].
    destruct (dict_get "code" err) as [code|e] eqn:Hcode;
      cbn [mbind result_bind];
      [|intros [= <-]; by eapply dict_get_raises].
    destruct (dict_get "details" err) as [details|e] eqn:Hdetails;
      cbn [mbind result_bind];
      [|intros [= <-]; by eapply dict_get_raises].
    by intros [= <-].
  - destruct (contains "data" json) as [[|]|e] eqn:Hdata;
      cbn [mbind result_bind negb];
      [done | by intros [= <-] | intros [= <-]; by eapply contains_raises].
  - intros [= <-]. by eapply contains_raises.
Qed.

Lemma resolve_uri_raises (uri : value) (ex : exn) :
  resolve_uri uri = Raise ex → ex = plain_exn TypeError.
Proof.
  destruct uri as [|b|n|s|items|d]; cbn [resolve_uri]; try done;
    unfold urljoin; cbn [_gen].
  - destruct (negb (truthy (VBool b))); cbn; [done | by intros [= <-]].
  - destruct (negb (truthy (VInt n))); cbn; [done | by intros [= <-]].
  - destruct (negb (truthy (VList items))); cbn; [done | by intros [= <-]].
  - destruct (negb (truthy (VDict d))); cbn; [done | by intros [= <-]].
Qed.

Lemma decode_classify_raises (r : Response) (ex : exn) :
  decode_json r ≫= classify = Raise ex → raised_by_call (e_class ex) = true.
Proof.
  unfold decode_json. destruct (resp_json r) as [j|]; cbn [mbind result_bind].
  - apply classify_raises.
  - by intros [= <-].
Qed.

Lemma check_status_raises (lookup : value → result value)
    (statuses : option (gset Z)) (r : Response) (ex : exn) :
  check_status lookup statuses r = Raise ex →
  ex = plain_exn AttributeError ∨ catches RequestsHTTPError ex = true.
Proof.
  destruct (statuses_given statuses) eqn:Hgiven.
  - destruct (in_statuses (status_code r) statuses) eqn:Hin.
    + by rewrite check_status_accepted.
    + rewrite check_status_rejected by done. intros [= <-]. by left.
  - rewrite check_status_default by done. unfold raise_for_status.
    destruct ((400 <=? status_code r) && (status_code r <? 600)); [|done].
    intros [= <-]. by right.
Qed.

Lemma except_clauses_raise (lookup : value → result value) (ex0 ex : exn) :
  handle_request_errors lookup (Raise ex0) = Raise ex →
  (ex = ex0 ∧ catches RequestException ex0 = false)
  ∨ (∃ v, lookup v = Raise ex)
  ∨ raised_by_call (e_class ex) = true.
Proof.
  cbn [handle_request_errors].
  destruct (catches RequestsHTTPError ex0) eqn:Hhttp.
  - destruct (e_response ex0) as [r|]; cbn [mbind result_bind];
      [|intros [= <-]; by right; right].
    change (Response_getattr r "status_code") with (Ok (VInt (status_code r))).
    cbn [mbind result_bind].
    destruct (lookup (VInt (status_code r))) as [names|e] eqn:Hnames;
      cbn [mbind result_bind];
      [|intros [= <-]; right; left; by eexists].
    destruct (getitem_first names) as [details|e] eqn:Hdetails;
      cbn [mbind result_bind]; intros [= <-]; right; right; [done|].
    by eapply getitem_first_raises.
  - destruct (catches RequestException ex0) eqn:Hreq.
    + intros [= <-]. by right; right.
    + intros [= <-]. by left.
Qed.

Lemma call_raise_origin (transport : transport_call → result Response)
    (lookup : value → result value) (method : string) (uri data : value)
    (statuses : option (gset Z)) (extra : kwargs) (ex : exn) :
  call transport lookup method uri data statuses extra = Raise ex →
  raise_origin transport lookup ex.
Proof.
  unfold call, raise_origin.
  destruct (resolve_uri uri) as [u|e] eqn:Huri; cbn [mbind result_bind].
  2:{ intros [= <-]. apply resolve_uri_raises in Huri as ->. by right; right. }
  unfold try_request.
  destruct (transport _) as [r|ex0] eqn:Hsend; cbn [mbind result_bind].
  - destruct (check_status lookup statuses r) as [[]|ex1] eqn:Hstatus;
      cbn [mbind result_bind].
    + cbn [handle_request_errors mbind result_bind].
      intros Htail. right; right. by eapply decode_classify_raises.
    + destruct (handle_request_errors lookup (Raise ex1)) as [r'|e] eqn:Hclauses;
        cbn [mbind result_bind].
      * intros Htail. right; right. by eapply decode_classify_raises.
      * intros [= <-].
        apply except_clauses_raise in Hclauses as [[-> Hforeign] | Hrest];
          [|by right].
        apply check_status_raises in Hstatus as [-> | Hhttp];
          [by right; right|].
        unfold catches in *. by destruct (e_class ex1).
  - destruct (handle_request_errors lookup (Raise ex0)) as [r'|e] eqn:Hclauses;
      cbn [mbind result_bind].
    + intros Htail. right; right. by eapply decode_classify_raises.
    + intros [= <-].
      apply except_clauses_raise in Hclauses as [[-> Hforeign] | Hrest];
        [|by right].
      left. by eexists.
Qed.

(** X18: [UnsupportedMethodError] is never raised by [call] itself: unless
    the transport or the status-code table raises one, no call ends in it,
    whatever the method is. *)
Theorem call_never_unsupported_method
    (transport : transport_call → result Response)
    (lookup : value → result value) (method : string) (uri data : value)
    (statuses : option (gset Z)) (extra : kwargs) (ex : exn) :
  (∀ c e, transport c = Raise e → e_class e ≠ UnsupportedMethodError) →
  (∀ v e, lookup v = Raise e → e_class e ≠ UnsupportedMethodError) →
  call transport lookup method uri data statuses extra = Raise ex →
  e_class ex ≠ UnsupportedMethodError.
Proof.
  intros Htransport Hlookup Hcall.
  apply call_raise_origin in Hcall as [(c & Hc & _) | [(v & Hv) | Hown]].
  - by eapply Htransport.
  - by eapply Hlookup.
  - by intros Hclass; rewrite Hclass in Hown.
Qed.

Lemma call_never_unsupported_method_witness :
  e_class (raise_from (BadJSONError_init None None) (plain_exn ValueError))
  ≠ UnsupportedMethodError.
Proof.
  apply (call_never_unsupported_method
           (answering (mkResponse 200 None)) sample_lookup
           "FROBNICATE" (VStr "http://api/rats") VNone None []).
  - intros c e. discriminate.
  - intros v e. discriminate.
  - reflexivity.
Defined.

(** X19: no request exception of the transport escapes [call]: as long as
    the status-code table raises none, whatever [call] ends in is not
    caught by [except RequestException]. *)
Theorem call_contains_request_exceptions
    (transport : transport_call → result Response)
    (lookup : value → result value) (method : string) (uri data : value)
    (statuses : option (gset Z)) (extra : kwargs) (ex : exn) :
  (∀ v e, lookup v = Raise e → catches RequestException e = false) →
  call transport lookup method uri data statuses extra = Raise ex →
  catches RequestException ex = false.
Proof.
  intros Hlookup Hcall.
  apply call_raise_origin in Hcall as [(c & _ & Hc) | [(v & Hv) | Hown]].
  - done.
  - by eapply Hlookup.
  - unfold catches. by destruct (e_class ex).
Qed.

Lemma call_contains_request_exceptions_witness :
  catches RequestException
    (mkExn BadResponseError VNone VNone VNone None
       (Some (plain_exn RequestsConnectionError))) = false.
Proof.
  apply (call_contains_request_exceptions
           (failing (plain_exn RequestsConnectionError)) sample_lookup
           "GET" (VStr "http://api/rats") VNone None []).
  - intros v e. discriminate.
  - reflexivity.
Defined.

(** ** [call]: the URI *)

(** X22: a [uri] that is not a string is never joined from its elements.
    When it is falsy ([None], an empty sequence or mapping, [0]) it resolves
    to the empty URL and the request is made against that; when it is truthy
    [call] ends in a [TypeError] before any request. *)
Theorem call_non_string_uri
    (transport : transport_call → result Response)
    (lookup : value → result value) (method : string) (uri data : value)
    (statuses : option (gset Z)) (extra : kwargs) :
  (∀ s, uri ≠ VStr s) →
  (truthy uri = false →
     call transport lookup method uri data statuses extra
     = call transport lookup method (VStr EmptyString) data statuses extra)
  ∧ (truthy uri = true →
     call transport lookup method uri data statuses extra
     = Raise (plain_exn TypeError)).
Proof.
  intros Hnot_str.
  assert (resolve_uri uri
          = if truthy uri then Raise (plain_exn TypeError) else Ok EmptyString)
    as Hresolve.
  { destruct uri as [|b|n|s|items|d]; cbn [resolve_uri];
      try (by destruct (Hnot_str s));
      unfold urljoin; cbn [_gen]; by destruct (truthy _). }
  unfold call. rewrite Hresolve. split; by intros ->.
Qed.

Lemma call_non_string_uri_witness :
  call (answering (mkResponse 200 (Some (VDict [("data", VInt 1)]))))
       sample_lookup "GET" (VList []) VNone None []
  = call (answering (mkResponse 200 (Some (VDict [("data", VInt 1)]))))
         sample_lookup "GET" (VStr EmptyString) VNone None []
  ∧ call (answering (mkResponse 200 (Some (VDict [("data", VInt 1)]))))
         sample_lookup "GET" (VInt 7) VNone None []
    = Raise (plain_exn TypeError).
Proof.
  split.
  - destruct (call_non_string_uri
                (answering (mkResponse 200 (Some (VDict [("data", VInt 1)]))))
                sample_lookup "GET" (VList []) VNone None []
                ltac:(discriminate)) as [Hfalsy _].
    apply Hfalsy. reflexivity.
  - destruct (call_non_string_uri
                (answering (mkResponse 200 (Some (VDict [("data", VInt 1)]))))
                sample_lookup "GET" (VInt 7) VNone None []
                ltac:(discriminate)) as [_ Htruthy].
    apply Htruthy. reflexivity.
Defined.

(** ** [call]: the default policy and the status-code table *)

(** X23: under the default policy (no acceptable set, or an empty one) a
    response with a 4xx or 5xx status leads to the same subscript of the
    status-code table; when the subscript raises, as subscripting the module
    [requests.status_codes] does, [call] ends in that exception instead of
    an [HTTPError] carrying the status. *)
Theorem call_default_status_table_raises
    (transport : transport_call → result Response)
    (lookup : value → result value) (method uri : string) (data : value)
    (statuses : option (gset Z)) (extra : kwargs) (r : Response) (e : exn) :
  transport (dispatch method uri (if truthy data then data else VDict []) extra)
  = Ok r →
  statuses_given statuses = false →
  (400 <=? status_code r) && (status_code r <? 600) = true →
  lookup (VInt (status_code r)) = Raise e →
  call transport lookup method (VStr uri) data statuses extra = Raise e.
Proof.
  intros Hsend Hdefault Hrange Htable.
  rewrite (call_with_response _ _ _ _ _ _ _ r Hsend).
  rewrite check_status_default by done.
  unfold raise_for_status. rewrite Hrange.
  cbn [mbind result_bind handle_request_errors].
  change (catches RequestsHTTPError _) with true.
  cbn [e_response mbind result_bind].
  change (Response_getattr r "status_code") with (Ok (VInt (status_code r))).
  cbn [mbind result_bind]. by rewrite Htable.
Qed.

Lemma call_default_status_table_raises_witness :
  call (answering (mkResponse 404 (Some (VDict [("data", VInt 1)]))))
       module_subscript "GET" (VStr "http://api/rats") VNone None []
  = Raise (plain_exn TypeError).
Proof.
  apply (call_default_status_table_raises
           (answering (mkResponse 404 (Some (VDict [("data", VInt 1)]))))
           module_subscript "GET" "http://api/rats" VNone None []
           (mkResponse 404 (Some (VDict [("data", VInt 1)])))
           (plain_exn TypeError));
    reflexivity.
Defined.
